(** * IndustryBenchmarks2024: the plotting and renaming utilities

    A shallow embedding of
      - [industry_benchmarks/utils/extras/plot_results.py]
        (the experimental and calculated data readers, the graph assembler,
        the three plot reports and the [run] command),
      - [industry_benchmarks/utils/rename_exp_data.py] (the renaming utility),
        and
      - [industry_benchmarks/utils/maint/gen_amber_top.py] (the topology
        driver),
    followed by the properties of the specification that concern them and by
    further properties of the code.

    Conventions of the embedding.
      - A Python [float] is a binary64 number: Rocq's primitive [float].
      - A raised exception is the [Err] branch of [result]; what a function
        prints, warns about, plots or writes is a list of events returned next
        to its result.
      - A [dict] whose iteration order is observed (the two data mappings) is an
        insertion-ordered association list; a [dict] that is only looked up
        (node attributes, the JSON name mapping) is a [gmap].
      - [csv.reader] is taken at its output: the list of rows, each a list of
        fields.  cinnabar, numpy, pandas, biobb_amber, the file system and
        the builtin [float] are external to the repository and enter as
        parameters. *)

From Stdlib Require Import PrimFloat Uint63 Ascii.
From stdpp Require Import base option list strings gmap pretty.

Set Default Proof Using "Type".
#[local] Set Warnings "-inexact-float,-clear-no-such-hyp".

(** ** Exceptions and results *)

(** The exception classes that the two scripts raise or handle; [OtherError]
    is any other class, by name.  No class here is a subclass of another. *)
Inductive exn : Type :=
  | StopIteration
  | ValueError
  | IndexError
  | KeyError (key : string)
  | ZeroDivisionError
  | RuntimeError (msg : string)
  | OtherError (name : string).

Inductive result (A : Type) : Type :=
  | Ok (a : A)
  | Err (e : exn).
Arguments Ok {A} a.
Arguments Err {A} e.

Definition is_ok {A} (r : result A) : bool :=
  match r with Ok _ => true | Err _ => false end.

Definition rbind {A B} (r : result A) (k : A → result B) : result B :=
  match r with
  | Ok a => k a
  | Err e => Err e
  end.

(** A computation that logs events of type [E] and then returns or raises.
    The events of a computation that raises are those logged before the
    exception left it. *)
Definition M (E A : Type) : Type := list E * result A.

Definition ret {E A} (a : A) : M E A := ([], Ok a).
Definition raise {E A} (e : exn) : M E A := ([], Err e).
Definition emit {E} (ev : E) : M E unit := ([ev], Ok tt).
Definition lift {E A} (r : result A) : M E A := ([], r).

Definition bind {E A B} (m : M E A) (k : A → M E B) : M E B :=
  match m with
  | (l, Ok a) => let '(l', r) := k a in (l ++ l', r)
  | (l, Err e) => (l, Err e)
  end.

(** [try: body except ValueError: handler]. *)
Definition try_except_ValueError {E A} (body handler : M E A) : M E A :=
  match body with
  | (l, Err ValueError) => let '(l', r) := handler in (l ++ l', r)
  | other => other
  end.

Declare Scope py_scope.
Delimit Scope py_scope with py.
Notation "x <~ r ;; k" := (rbind r (λ x, k))
  (at level 100, r at next level, right associativity) : py_scope.
Notation "x <- m ;; k" := (bind m (λ x, k))
  (at level 100, m at next level, right associativity) : py_scope.
Notation "m ;; k" := (bind m (λ _, k))
  (at level 100, right associativity) : py_scope.
Open Scope py_scope.

(** A [for] loop whose body may raise, threading the loop state. *)
Fixpoint rfold {A S} (body : S → A → result S) (s : S) (l : list A) : result S :=
  match l with
  | [] => Ok s
  | a :: l' => s' <~ body s a ;; rfold body s' l'
  end.

Fixpoint mfold {E A S} (body : S → A → M E S) (s : S) (l : list A) : M E S :=
  match l with
  | [] => ret s
  | a :: l' => s' <- body s a ;; mfold body s' l'
  end.

(** A list comprehension whose element expression may raise. *)
Fixpoint rmap {A B} (f : A → result B) (l : list A) : result (list B) :=
  match l with
  | [] => Ok []
  | a :: l' => b <~ f a ;; bs <~ rmap f l' ;; Ok (b :: bs)
  end.

(** ** Python builtins *)

(** [l[i]] for a non-negative index. *)
Definition getitem {A} (l : list A) (i : nat) : result A :=
  match l !! i with
  | Some a => Ok a
  | None => Err IndexError
  end.

(** [l.index(x)]: the first position of [x], [ValueError] when absent. *)
Fixpoint index (x : string) (l : list string) : result nat :=
  match l with
  | [] => Err ValueError
  | y :: l' => if decide (y = x) then Ok 0 else i <~ index x l' ;; Ok (S i)
  end.

(** [float(n)] for a length [n] (below 2^63). *)
Definition float_of_nat (n : nat) : float :=
  PrimFloat.of_uint63 (Uint63.of_Z (Z.of_nat n)).

(** [sum(l)]: left to right, from the integer start value [0].  (CPython
    from 3.12 on compensates the rounding errors of the additions; the two
    agree wherever the additions are exact, as they are in the sums evaluated
    below.) *)
Definition py_sum (l : list float) : float :=
  fold_left PrimFloat.add l 0%float.

(** [s / n] as it occurs in the source: [s] is [sum] of a list and [n] its
    [len], so the divisor is zero exactly when the list is empty (and then
    [s] is the integer [0]). *)
Definition py_truediv (s : float) (n : nat) : result float :=
  match n with
  | O => Err ZeroDivisionError
  | S _ => Ok (PrimFloat.div s (float_of_nat n))
  end.

(** ** Insertion-ordered dictionaries *)

Definition odict (V : Type) : Type := list (string * V).

Fixpoint od_get {V} (k : string) (d : odict V) : option V :=
  match d with
  | [] => None
  | (k', v) :: d' => if decide (k' = k) then Some v else od_get k d'
  end.

(** [d[k] = v]: an existing key keeps its position, a new key goes last. *)
Fixpoint od_set {V} (k : string) (v : V) (d : odict V) : odict V :=
  match d with
  | [] => [(k, v)]
  | (k', v') :: d' =>
      if decide (k' = k) then (k, v) :: d' else (k', v') :: od_set k v d'
  end.

Definition od_keys {V} (d : odict V) : list string := d.*1.
Definition od_values {V} (d : odict V) : list V := d.*2.

(** [d[k]], raising [KeyError] for a missing key of a looked-up mapping. *)
Definition getkey {V} (d : gmap string V) (k : string) : result V :=
  match d !! k with
  | Some v => Ok v
  | None => Err (KeyError k)
  end.

(** ** plot_results.py *)

Module plot_results.

(** *** External collaborators *)

(** The builtin [float(s)]: [None] stands for the [ValueError] of a string
    that is not a number. *)
Class Python := { float_of_str : string → option float }.

(** [np.mean], whose summation order is numpy's own. *)
Class Numpy := { np_mean : list float → float }.

(** A networkx [DiGraph] as its [nodes(data=True)] and [edges(data=True)]
    views. *)
Record DiGraph := {
  nodes : list (string * gmap string float);
  edges : list (string * string * gmap string float) }.

(** [labelA] and [labelB] of a [Measurement]: [ReferenceState()] or a ligand. *)
Inductive label := Ground | Ligand (name : string).

(** Values are in kcal/mol. *)
Record Measurement := {
  labelA : label;
  labelB : label;
  DG : float;
  uncertainty : float;
  computational : bool }.

(** The keyword arguments of [cinnabar_plotting._master_plot] that differ
    between the three reports; [mp_shift] is [None] where the call leaves the
    keyword out.  Every call also passes [quantity], [statistic_type="mle"],
    [figsize=5], [xy_lim=[-15, -5]] and both bootstrap flags [False]. *)
Record master_plot_call := {
  mp_x : list float;
  mp_y : list float;
  mp_xerr : list float;
  mp_yerr : list float;
  mp_statistics : list string;
  mp_title : string;
  mp_xlabel : string;
  mp_ylabel : string;
  mp_filename : string;
  mp_shift : option float }.

(** cinnabar: the free-energy map and the two plotting entry points.  Each
    call returns or raises as the library decides. *)
Class Cinnabar := {
  FEMap : Type;
  FEMap_new : FEMap;
  add_measurement : FEMap → Measurement → result FEMap;
  generate_absolute_values : FEMap → result FEMap;
  to_legacy_graph : FEMap → result DiGraph;
  plot_DDGs : DiGraph → string → result unit;
  _master_plot : master_plot_call → result unit }.

Inductive event :=
  | Warn (msg : string)
  | Echo (msg : string)
  | PlotDDGs (graph : DiGraph) (filename : string)
  | MasterPlot (call : master_plot_call).

(** *** Data model *)

Record exp_record := {
  exp_dG : float;
  exp_dG_err : float;
  fep_dG : float;
  fep_dG_err : float }.

Record calc_record := {
  ligand_i : string;
  ligand_j : string;
  ddG : float;
  ddG_err : float }.

Section readers.
Context `{!Python}.

Definition py_float (s : string) : result float :=
  match float_of_str s with
  | Some x => Ok x
  | None => Err ValueError
  end.

(** [float(row[i])]. *)
Definition float_field (row : list string) (i : nat) : result float :=
  s <~ getitem row i ;; py_float s.

(** *** get_exp_data *)

(** The body of [for row in rd]. *)
Definition exp_row (name_idx exp_dg_idx : nat) (exp_dg_error_idx : option nat)
    (fep_dg_idx fep_dg_error_idx : nat)
    (experimental_data : odict exp_record) (row : list string)
    : result (odict exp_record) :=
  name <~ getitem row name_idx ;;
  e <~ float_field row exp_dg_idx ;;
  ee <~ match exp_dg_error_idx with
        | Some i => float_field row i
        | None => Ok 0%float
        end ;;
  f <~ float_field row fep_dg_idx ;;
  fe <~ float_field row fep_dg_error_idx ;;
  Ok (od_set name
        {| exp_dG := e; exp_dG_err := ee; fep_dG := f; fep_dG_err := fe |}
        experimental_data).

Definition get_exp_data (rd : list (list string)) : result (odict exp_record) :=
  match rd with
  | [] => Err StopIteration
  | headers :: rows =>
      name_idx <~ index "Ligand name" headers ;;
      exp_dg_idx <~ index "Exp. dG (kcal/mol)" headers ;;
      let exp_dg_error_idx :=
        match index "Exp. dG error (kcal/mol)" headers with
        | Ok i => Some i
        | Err _ => None
        end in
      fep_dg_idx <~ index "Pred. dG (kcal/mol)" headers ;;
      fep_dg_error_idx <~ index "Pred. dG std. error (kcal/mol)" headers ;;
      rfold (exp_row name_idx exp_dg_idx exp_dg_error_idx
               fep_dg_idx fep_dg_error_idx) [] rows
  end.

(** *** get_calc_data *)

Definition calc_tag (i j : string) : string := i +:+ "->" +:+ j.

Definition padding_warning (tag : string) : string :=
  "Calculated standard deviation for " +:+ tag
    +:+ " is less than 0.01 - adding 0.01 padding".

(** The body of [for row in rd]. *)
Definition calc_row (calculated_data : odict calc_record) (row : list string)
    : M event (odict calc_record) :=
  i <- lift (getitem row 0) ;;
  j <- lift (getitem row 1) ;;
  let tag := calc_tag i j in
  g <- lift (float_field row 2) ;;
  e <- lift (float_field row 3) ;;
  if PrimFloat.ltb e 0.01 then
    emit (Warn (padding_warning tag)) ;;
    ret (od_set tag {| ligand_i := i; ligand_j := j; ddG := g;
                       ddG_err := PrimFloat.add e 0.01 |} calculated_data)
  else
    ret (od_set tag {| ligand_i := i; ligand_j := j; ddG := g; ddG_err := e |}
           calculated_data).

Definition get_calc_data (rd : list (list string))
    : M event (odict calc_record) :=
  match rd with
  | [] => raise StopIteration
  | headers :: rows => mfold calc_row [] rows
  end.

End readers.

Section plots.
Context `{!Python, !Numpy, !Cinnabar}.

(** *** get_femap *)

Definition exp_measurement (entry : string) (r : exp_record) : Measurement :=
  {| labelA := Ground; labelB := Ligand entry;
     DG := exp_dG r; uncertainty := exp_dG_err r; computational := false |}.

Definition calc_measurement (r : calc_record) : Measurement :=
  {| labelA := Ligand (ligand_i r); labelB := Ligand (ligand_j r);
     DG := ddG r; uncertainty := ddG_err r; computational := true |}.

Definition get_femap (exp_data : odict exp_record)
    (calc_data : odict calc_record) : result FEMap :=
  let experimental :=
    fold_left (λ d '(entry, r), od_set entry (exp_measurement entry r) d)
      exp_data [] in
  let calculated := calc_measurement <$> od_values calc_data in
  femap <~ rfold add_measurement FEMap_new (od_values experimental) ;;
  femap <~ rfold add_measurement femap calculated ;;
  generate_absolute_values femap.

(** *** The plot reports *)

Definition call_plot_DDGs (graph : DiGraph) (filename : string) : M event unit :=
  emit (PlotDDGs graph filename) ;; lift (plot_DDGs graph filename).

Definition call_master_plot (call : master_plot_call) : M event unit :=
  emit (MasterPlot call) ;; lift (_master_plot call).

(** [sum([i['exp_dG'] for i in exp_data.values()]) / len(exp_data)]. *)
Definition exp_shift (exp_data : odict exp_record) : result float :=
  py_truediv (py_sum (exp_dG <$> od_values exp_data)) (length exp_data).

(** [np.asarray([node[1][key] for node in graph.nodes(data=True)])]. *)
Definition node_column (graph : DiGraph) (key : string) : result (list float) :=
  rmap (λ node : string * gmap string float, getkey node.2 key) (nodes graph).

(** [data - np.mean(data) + shift]. *)
Definition centre (data : list float) (shift : float) : list float :=
  (λ v, PrimFloat.add (PrimFloat.sub v (np_mean data)) shift) <$> data.

Definition plot_femap (femap : FEMap) (exp_data : odict exp_record)
    (ddg_filename dg_filename : string) (statistics : list string)
    : M event unit :=
  g <- lift (to_legacy_graph femap) ;;
  call_plot_DDGs g ddg_filename ;;
  shift <- lift (exp_shift exp_data) ;;
  graph <- lift (to_legacy_graph femap) ;;
  x_data <- lift (node_column graph "exp_DG") ;;
  y_data <- lift (node_column graph "calc_DG") ;;
  xerr <- lift (node_column graph "exp_dDG") ;;
  yerr <- lift (node_column graph "calc_dDG") ;;
  let x_data := centre x_data shift in
  let y_data := centre y_data shift in
  call_master_plot
    {| mp_x := x_data; mp_y := y_data; mp_xerr := xerr; mp_yerr := yerr;
       mp_statistics := statistics; mp_title := "Experiment vs OpenFE";
       mp_xlabel := "experimental"; mp_ylabel := "openfe";
       mp_filename := dg_filename; mp_shift := None |}.

Definition plot_schrodinger_comparison (exp_data : odict exp_record)
    (filename : string) (statistics : list string) : M event unit :=
  let exp := exp_dG <$> od_values exp_data in
  let exp_err := exp_dG_err <$> od_values exp_data in
  let fep := fep_dG <$> od_values exp_data in
  let fep_err := fep_dG_err <$> od_values exp_data in
  shift <- lift (exp_shift exp_data) ;;
  call_master_plot
    {| mp_x := exp; mp_y := fep; mp_xerr := exp_err; mp_yerr := fep_err;
       mp_statistics := statistics; mp_title := "Experiment vs FEP+";
       mp_xlabel := "experimental"; mp_ylabel := "fep+";
       mp_filename := filename; mp_shift := Some shift |}.

(** The five lists that the loop of [plot_openfe_schrodinger_comparison]
    appends to. *)
Record paired := {
  fep : list float;
  fep_err : list float;
  dg_openfe : list float;
  openfe_err : list float;
  exp : list float }.

Definition no_pairs : paired :=
  {| fep := []; fep_err := []; dg_openfe := []; openfe_err := []; exp := [] |}.

(** The body of [for entry in exp_data]. *)
Definition pair_entry (openfe_nodes : list (string * gmap string float))
    (acc : paired) (item : string * exp_record) : result paired :=
  let '(entry, r) := item in
  let openfe_entry :=
    filter (λ node : string * gmap string float, node.1 = entry) openfe_nodes in
  match openfe_entry with
  | [] => Ok acc
  | node :: _ =>
      c <~ getkey node.2 "calc_DG" ;;
      ce <~ getkey node.2 "calc_dDG" ;;
      e <~ getkey node.2 "exp_DG" ;;
      Ok {| fep := fep acc ++ [fep_dG r];
            fep_err := fep_err acc ++ [fep_dG_err r];
            dg_openfe := dg_openfe acc ++ [c];
            openfe_err := openfe_err acc ++ [ce];
            exp := exp acc ++ [e] |}
  end.

Definition collect_pairs (openfe_nodes : list (string * gmap string float))
    (exp_data : odict exp_record) : result paired :=
  rfold (pair_entry openfe_nodes) no_pairs exp_data.

(** [sum(exp) / len(exp)]. *)
Definition paired_shift (p : paired) : result float :=
  py_truediv (py_sum (exp p)) (length (exp p)).

Definition plot_openfe_schrodinger_comparison (femap : FEMap)
    (exp_data : odict exp_record) (filename : string)
    (statistics : list string) : M event unit :=
  g <- lift (to_legacy_graph femap) ;;
  let openfe_nodes := nodes g in
  p <- lift (collect_pairs openfe_nodes exp_data) ;;
  shift <- lift (paired_shift p) ;;
  let dg_openfe := centre (dg_openfe p) shift in
  call_master_plot
    {| mp_x := fep p; mp_y := dg_openfe;
       mp_xerr := fep_err p; mp_yerr := openfe_err p;
       mp_statistics := statistics; mp_title := "FEP+ vs OpenFE";
       mp_xlabel := "FEP+"; mp_ylabel := "OpenFE";
       mp_filename := filename; mp_shift := None |}.

(** *** run *)

Definition default_statistics : list string := ["RMSE"; "MUE"; "R2"; "rho"].

Definition small_sample_notice : string :=
  "Correlation statistics (R2 and rho) for DG plots cannot be"
    +:+ " calculated due to small sample size.".

(** The three reports in the order of the source, all with one statistics
    list: the body of the [try] and, after the notice, of the handler. *)
Definition plot_batch (femap : FEMap) (exp_data : odict exp_record)
    (ddg_plot_filename dg_plot_filename dg_fepplus_plot_filename
       dg_openfe_fepplus_plot_filename : string)
    (statistics : list string) : M event unit :=
  plot_femap femap exp_data ddg_plot_filename dg_plot_filename statistics ;;
  plot_schrodinger_comparison exp_data dg_fepplus_plot_filename statistics ;;
  plot_openfe_schrodinger_comparison femap exp_data
    dg_openfe_fepplus_plot_filename statistics.

(** The part of [run] after the inputs are loaded. *)
Definition run_plots (femap : FEMap) (exp_data : odict exp_record)
    (ddg_plot_filename dg_plot_filename dg_fepplus_plot_filename
       dg_openfe_fepplus_plot_filename : string) : M event unit :=
  try_except_ValueError
    (plot_batch femap exp_data ddg_plot_filename dg_plot_filename
       dg_fepplus_plot_filename dg_openfe_fepplus_plot_filename
       default_statistics)
    (emit (Echo small_sample_notice) ;;
     plot_batch femap exp_data ddg_plot_filename dg_plot_filename
       dg_fepplus_plot_filename dg_openfe_fepplus_plot_filename
       ["RMSE"; "MUE"]).

(** [calculated] and [experiment] are the two files as [csv.reader] yields
    them. *)
Definition run (calculated experiment : list (list string))
    (ddg_plot_filename dg_plot_filename dg_fepplus_plot_filename
       dg_openfe_fepplus_plot_filename : string) : M event unit :=
  exp_data <- lift (get_exp_data experiment) ;;
  calc_data <- get_calc_data calculated ;;
  femap <- lift (get_femap exp_data calc_data) ;;
  run_plots femap exp_data ddg_plot_filename dg_plot_filename
    dg_fepplus_plot_filename dg_openfe_fepplus_plot_filename.

End plots.

End plot_results.

(** ** rename_exp_data.py *)

Module rename_exp_data.

(** A pandas [DataFrame] with the default index: the column labels and the
    rows, every row holding one cell per column. *)
Record DataFrame (cell : Type) := {
  columns : list string;
  rows : list (list cell) }.
Arguments columns {cell} _.
Arguments rows {cell} _.

(** What the utility needs of pandas and of the values in a frame: the type of
    a cell (also that of a value loaded from JSON), the builtin [str] on it,
    and the value of [df.apply(f, axis=1)] stored back as a column when [df]
    has no row, where pandas does not go through the rows. *)
Class Pandas := {
  cell : Type;
  str_of_cell : cell → string;
  apply_assign_empty : DataFrame cell → result (DataFrame cell) }.

Inductive event `{!Pandas} :=
  | ToCsv (path : string) (frame : DataFrame cell).

Section rename.
Context `{!Pandas}.

Definition wf_frame (df : DataFrame cell) : Prop :=
  Forall (λ row, length row = length (columns df)) (rows df).

(** [row[name]] on a row of a frame with the given columns. *)
Definition row_get (cols : list string) (row : list cell) (name : string)
    : result cell :=
  match index name cols with
  | Ok i =>
      match row !! i with
      | Some c => Ok c
      | None => Err (KeyError name)
      end
  | Err _ => Err (KeyError name)
  end.

Definition rename_error (name : string) : string :=
  "Could not convert " +:+ name
    +:+ " as it was not found in the name mapping.".

(** The closure [_rename] of [main], applied to one row. *)
Definition _rename (name_mapping : gmap string cell) (cols : list string)
    (row : list cell) : result cell :=
  let attempt :=
    v <~ row_get cols row "Ligand Name" ;;
    getkey name_mapping (str_of_cell v) in
  match attempt with
  | Err (KeyError _) =>
      v <~ row_get cols row "Ligand Name" ;;
      Err (RuntimeError (rename_error (str_of_cell v)))
  | other => other
  end.

(** [df[name] = values]: an existing column is replaced in place, a new one is
    appended. *)
Definition set_column (df : DataFrame cell) (name : string)
    (values : list cell) : DataFrame cell :=
  match index name (columns df) with
  | Ok i =>
      {| columns := columns df;
         rows := zip_with (λ row v, <[i := v]> row) (rows df) values |}
  | Err _ =>
      {| columns := columns df ++ [name];
         rows := zip_with (λ row v, row ++ [v]) (rows df) values |}
  end.

(** [exp_csv['Ligand Name'] = exp_csv.apply(_rename, axis=1)]. *)
Definition rename_column (exp_csv : DataFrame cell)
    (name_mapping : gmap string cell) : result (DataFrame cell) :=
  match rows exp_csv with
  | [] => apply_assign_empty exp_csv
  | _ :: _ =>
      renamed <~ rmap (_rename name_mapping (columns exp_csv)) (rows exp_csv) ;;
      Ok (set_column exp_csv "Ligand Name" renamed)
  end.

(** [exp_csv] is the input file as [pd.read_csv] loads it, [name_mapping] the
    mapping file as [json.load] does. *)
Definition main (exp_csv : DataFrame cell) (name_mapping : gmap string cell)
    (output : string) : M event unit :=
  exp_csv <- lift (rename_column exp_csv name_mapping) ;;
  emit (ToCsv output exp_csv).

End rename.

End rename_exp_data.

(** ** rename_exp_data.py, from the input file to the output file *)

Module rename_exp_data_files.
Import rename_exp_data.

(** What pandas does between a CSV file and a frame.  A file is taken as its
    records, the header row first, each record a list of fields as text. *)
Class PandasIO `{!Pandas} := {
  read_csv : list (list string) → result (DataFrame cell);
  to_csv : DataFrame cell → list (list string) }.

Section files.
Context `{!Pandas, !PandasIO}.

(** [main] from [exp_csv = pd.read_csv(experimental_data)] on. *)
Definition main_from_file (experimental_data : list (list string))
    (name_mapping : gmap string cell) (output : string) : M event unit :=
  exp_csv <- lift (read_csv experimental_data) ;;
  main exp_csv name_mapping output.

(** The files that the logged calls of [to_csv] wrote: path and records. *)
Definition files_written (log : list event)
    : list (string * list (list string)) :=
  (λ ev, match ev with ToCsv path frame => (path, to_csv frame) end) <$> log.

End files.

End rename_exp_data_files.

(** ** gen_amber_top.py *)

Module gen_amber_top.

(** *** Paths (POSIX) *)

Definition is_sep (c : ascii) : bool := bool_decide (c = "/"%char).

Definition starts_with_sep (s : string) : bool :=
  match s with
  | String c _ => is_sep c
  | EmptyString => false
  end.

Fixpoint ends_with_sep (s : string) : bool :=
  match s with
  | EmptyString => false
  | String c EmptyString => is_sep c
  | String _ s' => ends_with_sep s'
  end.

(** [os.path.join(a, b)]. *)
Definition join (a b : string) : string :=
  if starts_with_sep b then b
  else if bool_decide (a = "") || ends_with_sep a then a +:+ b
  else a +:+ "/" +:+ b.

(** [s.split("/")]. *)
Fixpoint split_sep (s : string) : list string :=
  match s with
  | EmptyString => [""]
  | String c s' =>
      if is_sep c then "" :: split_sep s'
      else
        match split_sep s' with
        | h :: t => String c h :: t
        | [] => [String c ""]
        end
  end.

(** [Path(p).name]: the last component of [p] that is neither empty nor
    ["."], and [""] when there is none. *)
Definition name (p : string) : string :=
  default "" (last (filter (λ part, part ≠ "" ∧ part ≠ ".") (split_sep p))).

(** The split of [n] at its last ["."]: what is before and what is after. *)
Fixpoint rsplit_dot (n : string) : option (string * string) :=
  match n with
  | EmptyString => None
  | String c n' =>
      match rsplit_dot n' with
      | Some (before, after) => Some (String c before, after)
      | None => if bool_decide (c = "."%char) then Some ("", n') else None
      end
  end.

(** [Path(p).stem]: the name without its suffix, a suffix being what starts at
    the last ["."] of the name when that is neither its first nor its last
    character. *)
Definition stem (p : string) : string :=
  let n := name p in
  match rsplit_dot n with
  | Some (before, after) =>
      if bool_decide (before ≠ "" ∧ after ≠ "") then before else n
  | None => n
  end.

(** *** External collaborators *)

(** The keyword arguments of [pdb4amber_run]. *)
Record pdb4amber_call := {
  p4a_input_pdb_path : string;
  p4a_output_pdb_path : string;
  p4a_remove_hydrogens : bool;
  p4a_remove_waters : bool }.

(** The keyword arguments of [leap_gen_top]. *)
Record leap_call := {
  leap_input_pdb_path : string;
  leap_output_pdb_path : string;
  leap_output_top_path : string;
  leap_output_crd_path : string;
  leap_forcefield : list string }.

(** The file system as [main] finds it, and the calls that change it:
    [os.path.exists], [os.makedirs] and the two biobb_amber tools, which
    return an exit code or raise. *)
Class System := {
  path_exists : string → bool;
  makedirs : string → result unit;
  pdb4amber_run : pdb4amber_call → result Z;
  leap_gen_top : leap_call → result Z }.

Inductive event :=
  | Makedirs (path : string)
  | Pdb4amber (call : pdb4amber_call)
  | Leap (call : leap_call).

(** What leaves [main]: its own [Exception], or what a call raised. *)
Inductive raised :=
  | Exception (msg : string)
  | Propagated (e : exn).

Section main.
Context `{!System}.

(** The events logged, and [None] when [main] returns. *)
Definition main (input_pdb force_field output_folder : string)
    : list event * option raised :=
  if negb (path_exists input_pdb) then
    ([], Some (Exception "Input PDB file not found"))
  else
    let '(w, made) :=
      if negb (path_exists output_folder)
      then ([Makedirs output_folder], makedirs output_folder)
      else ([], Ok tt) in
    match made with
    | Err e => (w, Some (Propagated e))
    | Ok _ =>
        let output_pdb_path :=
          join output_folder (stem input_pdb +:+ "_pdb4amber.pdb") in
        let first :=
          {| p4a_input_pdb_path := input_pdb;
             p4a_output_pdb_path := output_pdb_path;
             p4a_remove_hydrogens := false;
             p4a_remove_waters := false |} in
        match pdb4amber_run first with
        | Err e => (w ++ [Pdb4amber first], Some (Propagated e))
        | Ok _ =>
            let input_pdb := output_pdb_path in
            let output_pdb_path :=
              join output_folder (stem input_pdb +:+ "_leap.pdb") in
            let output_top_path :=
              join output_folder (stem input_pdb +:+ ".parmtop") in
            let output_crd_path :=
              join output_folder (stem input_pdb +:+ ".crd") in
            let second :=
              {| leap_input_pdb_path := input_pdb;
                 leap_output_pdb_path := output_pdb_path;
                 leap_output_top_path := output_top_path;
                 leap_output_crd_path := output_crd_path;
                 leap_forcefield := [force_field] |} in
            (w ++ [Pdb4amber first; Leap second],
             match leap_gen_top second with
             | Err e => Some (Propagated e)
             | Ok _ => None
             end)
        end
    end.

End main.

End gen_amber_top.

(** ** Concrete collaborators and inputs

    Instances of the external interfaces and small input files, used to run
    the definitions above on concrete data. *)

Module fixtures.
Import plot_results rename_exp_data.

(** [float] on plain decimal literals: an optional sign, digits, an optional
    point, digits.  The value is the quotient of two integers that binary64
    holds exactly (a numerator below 2^53 and a power of ten up to 10^18), so
    the one rounding of the division gives the float nearest to the literal,
    which is what [float] returns.  Longer literals and the other notations
    that [float] reads are outside this stand-in. *)
Definition digit (c : ascii) : option Z :=
  let n := Z.of_nat (nat_of_ascii c) in
  if decide (48 ≤ n ≤ 57)%Z then Some (n - 48)%Z else None.

Fixpoint digits (acc : Z) (l : list ascii) : option Z :=
  match l with
  | [] => Some acc
  | c :: l' =>
      match digit c with
      | Some d => digits (10 * acc + d)%Z l'
      | None => None
      end
  end.

Fixpoint split_point (l : list ascii) : list ascii * option (list ascii) :=
  match l with
  | [] => ([], None)
  | c :: l' =>
      if decide (c = "."%char) then ([], Some l')
      else let '(a, b) := split_point l' in (c :: a, b)
  end.

Definition decimal_literal (s : string) : option float :=
  let cs := String.list_ascii_of_string s in
  let '(negative, cs) :=
    match cs with
    | c :: r => if decide (c = "-"%char) then (true, r) else (false, cs)
    | [] => (false, cs)
    end in
  let '(int_part, frac) := split_point cs in
  let frac_part := default [] frac in
  match int_part ++ frac_part with
  | [] => None
  | ds =>
      match digits 0 ds with
      | Some m =>
          let k := length frac_part in
          if decide ((m < 2 ^ 53)%Z ∧ k ≤ 18) then
            let q := PrimFloat.div (PrimFloat.of_uint63 (Uint63.of_Z m))
                       (PrimFloat.of_uint63 (Uint63.of_Z (10 ^ Z.of_nat k))) in
            Some (if negative then PrimFloat.opp q else q)
          else None
      | None => None
      end
  end.

Definition decimal_python : Python := {| float_of_str := decimal_literal |}.

(** The mean of a short list, where numpy adds from left to right. *)
Definition short_numpy : Numpy :=
  {| np_mean := λ l, PrimFloat.div (py_sum l) (float_of_nat (length l)) |}.

(** A map that is its own legacy graph and that no measurement changes, with
    a plotting routine that cannot compute the correlation statistics on fewer
    than three points. *)
Definition small_sample_master_plot (call : master_plot_call) : result unit :=
  if decide (("R2" ∈ mp_statistics call ∨ "rho" ∈ mp_statistics call)
             ∧ length (mp_x call) < 3)
  then Err ValueError else Ok tt.

Definition graph_cinnabar (graph : DiGraph) : Cinnabar := {|
  FEMap := DiGraph;
  FEMap_new := graph;
  add_measurement := λ femap _, Ok femap;
  generate_absolute_values := λ femap, Ok femap;
  to_legacy_graph := λ femap, Ok femap;
  plot_DDGs := λ _ _, Ok tt;
  _master_plot := small_sample_master_plot |}.

(** Cells that are strings. *)
Definition string_pandas : Pandas := {|
  cell := string;
  str_of_cell := λ s, s;
  apply_assign_empty := λ df, Ok df |}.

Definition node_attrs (exp_DG exp_dDG calc_DG calc_dDG : float)
    : gmap string float :=
  <["exp_DG" := exp_DG]> (<["exp_dDG" := exp_dDG]>
    (<["calc_DG" := calc_DG]> (<["calc_dDG" := calc_dDG]> ∅))).

Definition calc_header : list string :=
  ["ligand_i"; "ligand_j"; "DDG(i->j) (kcal/mol)"; "uncertainty (kcal/mol)"].

Definition exp_header : list string :=
  ["Ligand name"; "Exp. dG (kcal/mol)"; "Pred. dG (kcal/mol)";
   "Pred. dG std. error (kcal/mol)"].

(** One edge with a standard error of 0.003. *)
Definition calc_small_error : list (list string) :=
  [calc_header; ["A"; "B"; "1.0"; "0.003"]].

(** One edge with a standard error of 0.02. *)
Definition calc_large_error : list (list string) :=
  [calc_header; ["A"; "B"; "1.0"; "0.02"]].

(** The same ordered pair on two rows. *)
Definition calc_duplicate : list (list string) :=
  [calc_header; ["A"; "B"; "1.0"; "0.1"]; ["A"; "B"; "2.5"; "0.2"]].

(** Two ligands. *)
Definition exp_two : list (list string) :=
  [exp_header; ["A"; "-10.0"; "-9.5"; "0.1"]; ["B"; "-8.0"; "-8.5"; "0.1"]].

(** Three ligands. *)
Definition exp_three : list (list string) :=
  [exp_header; ["A"; "-10.0"; "-9.5"; "0.1"]; ["B"; "-8.0"; "-8.5"; "0.1"];
   ["C"; "-6.0"; "-6.5"; "0.1"]].

(** The same ligand name on two rows. *)
Definition exp_duplicate : list (list string) :=
  [exp_header; ["A"; "-10.0"; "-9.5"; "0.1"]; ["A"; "-8.0"; "-8.5"; "0.1"]].

(** No "Pred. dG (kcal/mol)" column. *)
Definition exp_no_pred : list (list string) :=
  [["Ligand name"; "Exp. dG (kcal/mol)"; "Pred. dG std. error (kcal/mol)"];
   ["A"; "-10.0"; "0.1"]].

(** A field that is not a number. *)
Definition exp_malformed : list (list string) :=
  [exp_header; ["A"; "-10.0"; "-9.5"; "0.1"]; ["B"; "n/a"; "-8.5"; "0.1"]].

Definition exp_data_two : odict exp_record :=
  [("A", {| exp_dG := (-10)%float; exp_dG_err := 0%float;
            fep_dG := (-9.5)%float; fep_dG_err := 0.1%float |});
   ("B", {| exp_dG := (-8)%float; exp_dG_err := 0%float;
            fep_dG := (-8.5)%float; fep_dG_err := 0.1%float |})].

Definition exp_data_three : odict exp_record :=
  exp_data_two ++
  [("C", {| exp_dG := (-6)%float; exp_dG_err := 0%float;
            fep_dG := (-6.5)%float; fep_dG_err := 0.1%float |})].

(** A graph with the ligands A and B, joined by one edge. *)
Definition graph_A_B : DiGraph :=
  {| nodes := [("A", node_attrs (-10)%float 0%float (-9.5)%float 0.1%float);
               ("B", node_attrs (-8)%float 0%float (-8.5)%float 0.1%float)];
     edges := [("A", "B", {["calc_DDG" := 1%float]})] |}.

Definition example_cinnabar : Cinnabar := graph_cinnabar graph_A_B.

(** A graph without any of the experimental ligands. *)
Definition graph_other : DiGraph :=
  {| nodes := [("X", node_attrs (-7)%float 0%float (-7.5)%float 0.1%float)];
     edges := [] |}.

Definition name_mapping_LigA : gmap string string := {["LigA" := "CCD-0001"]}.

Definition frame_LigA : DataFrame string :=
  {| columns := ["Ligand Name"; "Exp. dG (kcal/mol)"];
     rows := [["LigA"; "-10.0"]] |}.

Definition frame_unmapped : DataFrame string :=
  {| columns := ["Ligand Name"; "Exp. dG (kcal/mol)"];
     rows := [["LigA"; "-10.0"]; ["LigB"; "-8.0"]] |}.

End fixtures.

Module more_fixtures.
Import plot_results rename_exp_data gen_amber_top fixtures.

(** A graph with a node, Z, that has calculated values only. *)
Definition graph_with_unmeasured : DiGraph :=
  {| nodes := [("A", node_attrs (-10)%float 0%float (-9.5)%float 0.1%float);
               ("Z", <["calc_DG" := (-7.5)%float]>
                       (<["calc_dDG" := 0.1%float]> ∅))];
     edges := [("A", "Z", {["calc_DDG" := 2%float]})] |}.

(** A frame without a "Ligand Name" column. *)
Definition frame_no_column : DataFrame string :=
  {| columns := ["Ligand name"; "Exp. dG (kcal/mol)"];
     rows := [["LigA"; "-10.0"]] |}.

(** The mapping that undoes [name_mapping_LigA]. *)
Definition name_mapping_back : gmap string string := {["CCD-0001" := "LigA"]}.

(** A file system that holds the given paths, with tools that return the given
    exit codes and a [makedirs] that succeeds. *)
Definition system_with (present : list string) (code1 code2 : Z) : System := {|
  path_exists := λ p, bool_decide (p ∈ present);
  makedirs := λ _, Ok tt;
  pdb4amber_run := λ _, Ok code1;
  leap_gen_top := λ _, Ok code2 |}.

End more_fixtures.

Module typed_fixtures.
Import rename_exp_data rename_exp_data_files fixtures.

(** pandas on files whose columns hold integers or other text: a column all
    of whose fields are integer literals is read as integers and written in
    decimal, any other column is kept as text.  Columns of other kinds
    (floats, dates, missing values) are outside this stand-in.  For a frame
    without rows the apply-and-assign step raises [ValueError]. *)
Inductive value :=
  | VInt (z : Z)
  | VStr (s : string).

Definition int_literal (s : string) : option Z :=
  match String.list_ascii_of_string s with
  | [] => None
  | c :: r =>
      if decide (c = "-"%char) then
        match r with
        | [] => None
        | _ :: _ => Z.opp <$> digits 0 r
        end
      else digits 0 (c :: r)
  end.

Definition str_of_value (v : value) : string :=
  match v with
  | VInt z => pretty z
  | VStr s => s
  end.

Definition typed_pandas : Pandas := {|
  cell := value;
  str_of_cell := str_of_value;
  apply_assign_empty := λ _, Err ValueError |}.

Definition int_column (records : list (list string)) (j : nat) : bool :=
  forallb (λ record, match record !! j with
                     | Some s => bool_decide (is_Some (int_literal s))
                     | None => false
                     end) records.

Definition read_record (records : list (list string)) (record : list string)
    : list value :=
  imap (λ j s, if int_column records j then VInt (default 0%Z (int_literal s))
               else VStr s) record.

Definition typed_read_csv (file : list (list string))
    : result (DataFrame value) :=
  match file with
  | [] => Err (OtherError "EmptyDataError")
  | header :: records =>
      Ok {| columns := header; rows := read_record records <$> records |}
  end.

Definition typed_to_csv (frame : DataFrame value) : list (list string) :=
  columns frame
    :: ((λ row : list value, str_of_value <$> row) <$> rows frame).

Definition typed_pandas_io : @PandasIO typed_pandas :=
  @Build_PandasIO typed_pandas typed_read_csv typed_to_csv.

(** One ligand and an integer column written with leading zeros. *)
Definition csv_leading_zeros : list (list string) :=
  [["Ligand Name"; "Replicate"]; ["LigA"; "007"]].

Definition name_mapping_values : gmap string value :=
  {["LigA" := VStr "CCD-0001"]}.

(** Two rows whose names the mapping [name_mapping_LigA] lacks. *)
Definition frame_two_unmapped : DataFrame string :=
  {| columns := ["Ligand Name"; "Exp. dG (kcal/mol)"];
     rows := [["LigX"; "-10.0"]; ["LigB"; "-8.0"]] |}.

End typed_fixtures.

(** ** Vocabulary of the statements *)

Module spec.
Import plot_results rename_exp_data.

(** The key under which [get_calc_data] files a row. *)
Definition row_tag (row : list string) : option string :=
  match row with
  | i :: j :: _ => Some (calc_tag i j)
  | _ => None
  end.

(** The stored standard error for a parsed one. *)
Definition padded (e : float) : float :=
  if PrimFloat.ltb e 0.01 then PrimFloat.add e 0.01 else e.

(** The experimental entries that are nodes of the graph, each with the
    attributes of its first node of that name, in the order of the
    experimental mapping. *)
Definition matched (openfe_nodes : list (string * gmap string float))
    (exp_data : odict exp_record)
    : list (string * exp_record * gmap string float) :=
  omap (λ item : string * exp_record,
          (λ node : string * gmap string float, (item.1, item.2, node.2))
            <$> head (filter (λ node : string * gmap string float,
                                node.1 = item.1) openfe_nodes))
       exp_data.

Section batch.
Context `{!Python, !Numpy, !Cinnabar}.

(** One of the three reports raised [e], those before it having returned;
    [w] is what was logged until then. *)
Definition batch_raises (femap : FEMap) (exp_data : odict exp_record)
    (ddg_plot_filename dg_plot_filename dg_fepplus_plot_filename
       dg_openfe_fepplus_plot_filename : string)
    (statistics : list string) (w : list plot_results.event) (e : exn) : Prop :=
  plot_femap femap exp_data ddg_plot_filename dg_plot_filename statistics
    = (w, Err e)
  ∨ (∃ w1 w2,
       plot_femap femap exp_data ddg_plot_filename dg_plot_filename statistics
         = (w1, Ok tt)
       ∧ plot_schrodinger_comparison exp_data dg_fepplus_plot_filename
           statistics = (w2, Err e)
       ∧ w = w1 ++ w2)
  ∨ (∃ w1 w2 w3,
       plot_femap femap exp_data ddg_plot_filename dg_plot_filename statistics
         = (w1, Ok tt)
       ∧ plot_schrodinger_comparison exp_data dg_fepplus_plot_filename
           statistics = (w2, Ok tt)
       ∧ plot_openfe_schrodinger_comparison femap exp_data
           dg_openfe_fepplus_plot_filename statistics = (w3, Err e)
       ∧ w = w1 ++ w2 ++ w3).

End batch.

End spec.

Module vocabulary.
Import plot_results.

Section warnings.
Context `{!Python}.

(** The warning that a data row of the calculated file gives rise to: one
    when its fourth field parses to a number below 0.01, none otherwise. *)
Definition row_warnings (row : list string) : list event :=
  match row with
  | i :: j :: _ :: es :: _ =>
      match float_of_str es with
      | Some e =>
          if PrimFloat.ltb e 0.01 then [Warn (padding_warning (calc_tag i j))]
          else []
      | None => []
      end
  | _ => []
  end.

End warnings.

(** Whether an event is a [click.echo]. *)
Definition is_notice (ev : event) : bool :=
  match ev with
  | Echo _ => true
  | _ => false
  end.

(** The attributes of the first node called [entry]. *)
Definition node_of (openfe_nodes : list (string * gmap string float))
    (entry : string) : option (gmap string float) :=
  snd <$> head (filter (λ node : string * gmap string float, node.1 = entry)
                  openfe_nodes).

End vocabulary.

Module amber_vocabulary.
Import gen_amber_top.

(** Whether a string has a ["/"]. *)
Fixpoint has_sep (s : string) : bool :=
  match s with
  | EmptyString => false
  | String c s' => is_sep c || has_sep s'
  end.

(** The two calls of [main], with the file names written out. *)
Definition expected_pdb4amber (input_pdb output_folder : string)
    : pdb4amber_call :=
  {| p4a_input_pdb_path := input_pdb;
     p4a_output_pdb_path :=
       join output_folder (stem input_pdb +:+ "_pdb4amber.pdb");
     p4a_remove_hydrogens := false;
     p4a_remove_waters := false |}.

Definition expected_leap (input_pdb force_field output_folder : string)
    : leap_call :=
  {| leap_input_pdb_path :=
       join output_folder (stem input_pdb +:+ "_pdb4amber.pdb");
     leap_output_pdb_path :=
       join output_folder (stem input_pdb +:+ "_pdb4amber_leap.pdb");
     leap_output_top_path :=
       join output_folder (stem input_pdb +:+ "_pdb4amber.parmtop");
     leap_output_crd_path :=
       join output_folder (stem input_pdb +:+ "_pdb4amber.crd");
     leap_forcefield := [force_field] |}.

End amber_vocabulary.

(** ** General facts *)

Section monad_facts.
Context {E A B S : Type}.

Lemma bind_ok (l : list E) (a : A) (k : A → M E B) :
  bind (l, Ok a) k = (l ++ (k a).1, (k a).2).
Proof. unfold bind. by destruct (k a). Qed.

Lemma bind_inv_ok (m : M E A) (k : A → M E B) (w : list E) (b : B) :
  bind m k = (w, Ok b) →
  ∃ w1 a w2, m = (w1, Ok a) ∧ k a = (w2, Ok b) ∧ w = w1 ++ w2.
Proof.
  destruct m as [w1 [a|e]]; simpl; [|done].
  destruct (k a) as [w2 r] eqn:Hk. intros [= <- ->]. eauto 6.
Qed.

Lemma bind_ret (m : M E A) : bind m ret = m.
Proof. destruct m as [w [a|e]]; simpl; [|done]. by rewrite (right_id_L [] (++)). Qed.

Lemma rbind_ret (r : result A) : rbind r Ok = r.
Proof. by destruct r. Qed.

Lemma mfold_app (body : S → A → M E S) (s : S) (l1 l2 : list A) :
  mfold body s (l1 ++ l2) = bind (mfold body s l1) (λ s', mfold body s' l2).
Proof.
  revert s. induction l1 as [|a l1 IH]; intros s; simpl.
  - unfold ret, bind. by destruct (mfold body s l2).
  - destruct (body s a) as [w [s'|e]]; simpl; [|done].
    rewrite IH. destruct (mfold body s' l1) as [w1 [s1|e1]]; simpl.
    + destruct (mfold body s1 l2) as [w2 r2]. by rewrite (assoc_L (++)).
    + done.
Qed.

Lemma rfold_app (body : S → A → result S) (s : S) (l1 l2 : list A) :
  rfold body s (l1 ++ l2) = rbind (rfold body s l1) (λ s', rfold body s' l2).
Proof.
  revert s. induction l1 as [|a l1 IH]; intros s; simpl; [done|].
  destruct (body s a); simpl; [apply IH|done].
Qed.

(** A loop in which some iteration raises from every state does not return. *)
Lemma rfold_raises (body : S → A → result S) (s : S) (l : list A) (a : A) :
  a ∈ l → (∀ s', is_ok (body s' a) = false) → is_ok (rfold body s l) = false.
Proof.
  intros Hin Hbad. revert s.
  induction l as [|a' l IH]; intros s; [by apply elem_of_nil in Hin|].
  simpl. apply elem_of_cons in Hin as [->|Hin].
  - specialize (Hbad s). by destruct (body s a').
  - destruct (body s a'); simpl; [by apply IH|done].
Qed.

End monad_facts.

Section odict_facts.
Context {V : Type}.
Implicit Types (d : odict V) (k : string) (v : V).

Lemma od_get_set_eq d k v : od_get k (od_set k v d) = Some v.
Proof.
  induction d as [|[k' v'] d IH]; simpl.
  - by rewrite decide_True.
  - destruct (decide (k' = k)) as [->|Hne]; simpl.
    + by rewrite decide_True.
    + by rewrite decide_False.
Qed.

Lemma od_get_set_ne d k k' v : k ≠ k' → od_get k (od_set k' v d) = od_get k d.
Proof.
  intros Hne. induction d as [|[k0 v0] d IH]; simpl.
  - by rewrite decide_False.
  - destruct (decide (k0 = k')) as [->|Hne']; simpl.
    + by rewrite !decide_False.
    + destruct (decide (k0 = k)); [done|apply IH].
Qed.

Lemma od_keys_set d k v x :
  x ∈ od_keys (od_set k v d) ↔ x = k ∨ x ∈ od_keys d.
Proof.
  unfold od_keys. induction d as [|[k0 v0] d IH]; simpl.
  - rewrite list_elem_of_singleton. set_solver.
  - destruct (decide (k0 = k)) as [->|Hne]; simpl; set_solver.
Qed.

Lemma od_keys_set_NoDup d k v :
  NoDup (od_keys d) → NoDup (od_keys (od_set k v d)).
Proof.
  unfold od_keys. induction d as [|[k0 v0] d IH]; simpl; intros Hnd.
  - apply NoDup_singleton.
  - apply NoDup_cons in Hnd as [Hnotin Hnd].
    destruct (decide (k0 = k)) as [->|Hne]; simpl.
    + by apply NoDup_cons.
    + apply NoDup_cons. split; [|by apply IH].
      intros Hin. apply (od_keys_set d k v k0) in Hin as [?|?]; done.
Qed.

Lemma od_get_None d k : od_get k d = None ↔ k ∉ od_keys d.
Proof.
  unfold od_keys. induction d as [|[k0 v0] d IH]; simpl.
  - set_solver.
  - destruct (decide (k0 = k)) as [->|Hne]; set_solver.
Qed.

End odict_facts.

(** ** The two readers *)

Section reader_facts.
Import plot_results spec.
Context `{!Python}.

(** What one iteration of [get_calc_data] does to a row of four or more
    fields whose numbers parse. *)
Lemma calc_row_fields (d : odict calc_record) (i j gs es : string)
    (rest : list string) (g e : float) :
  float_of_str gs = Some g →
  float_of_str es = Some e →
  calc_row d (i :: j :: gs :: es :: rest) =
    ((if PrimFloat.ltb e 0.01 then [Warn (padding_warning (calc_tag i j))]
      else []),
     Ok (od_set (calc_tag i j)
           {| ligand_i := i; ligand_j := j; ddG := g; ddG_err := padded e |}
           d)).
Proof.
  intros Hg He. unfold calc_row, float_field, py_float, padded; simpl.
  rewrite Hg, He; simpl. by destruct (PrimFloat.ltb e 0.01).
Qed.

(** An iteration of [get_calc_data] that returns was given such a row. *)
Lemma calc_row_inv (d d' : odict calc_record) (row : list string)
    (w : list event) :
  calc_row d row = (w, Ok d') →
  ∃ i j gs es rest g e,
    row = i :: j :: gs :: es :: rest ∧
    float_of_str gs = Some g ∧ float_of_str es = Some e.
Proof.
  destruct row as [|i [|j [|gs [|es rest]]]]; try (by inversion 1).
  - unfold calc_row, float_field, py_float; simpl.
    destruct (float_of_str gs); by inversion 1.
  - unfold calc_row, float_field, py_float; simpl.
    destruct (float_of_str gs) as [g|] eqn:Hg; [|by inversion 1].
    destruct (float_of_str es) as [e|] eqn:He; [|by inversion 1].
    intros _. by exists i, j, gs, es, rest, g, e.
Qed.

(** Rows filed under other keys leave the record of a key as it is. *)
Lemma calc_rows_keep (tag : string) (rows : list (list string))
    (d d' : odict calc_record) (w : list event) :
  mfold calc_row d rows = (w, Ok d') →
  Forall (λ row, row_tag row ≠ Some tag) rows →
  od_get tag d' = od_get tag d.
Proof.
  revert d w. induction rows as [|row rows IH]; intros d w; simpl.
  - by intros [= _ ->].
  - intros Hrun Hother. apply Forall_cons in Hother as [Hrow Hother].
    apply bind_inv_ok in Hrun as (w1 & d1 & w2 & Hstep & Hrest & _).
    rewrite (IH _ _ Hrest Hother).
    destruct (calc_row_inv _ _ _ _ Hstep) as (i & j & gs & es & rest & g & e & -> & Hg & He).
    rewrite (calc_row_fields _ _ _ _ _ _ _ _ Hg He) in Hstep.
    injection Hstep as _ <-. apply od_get_set_ne. simpl in Hrow. congruence.
Qed.

(** The record that the reader returns for a row: that of the row itself when
    no later row has its key. *)
Lemma get_calc_data_row (headers : list string) (before after : list (list string))
    (i j gs es : string) (rest : list string) (g e : float)
    (w : list event) (d : odict calc_record) :
  get_calc_data (headers :: before ++ (i :: j :: gs :: es :: rest) :: after)
    = (w, Ok d) →
  float_of_str gs = Some g →
  float_of_str es = Some e →
  Forall (λ row, row_tag row ≠ Some (calc_tag i j)) after →
  od_get (calc_tag i j) d
    = Some {| ligand_i := i; ligand_j := j; ddG := g; ddG_err := padded e |}
  ∧ (PrimFloat.ltb e 0.01 = true → Warn (padding_warning (calc_tag i j)) ∈ w).
Proof.
  intros Hrun Hg He Hafter. simpl in Hrun. rewrite mfold_app in Hrun.
  apply bind_inv_ok in Hrun as (w1 & d1 & w2 & _ & Hrun & ->). simpl in Hrun.
  apply bind_inv_ok in Hrun as (w3 & d3 & w4 & Hstep & Hrest & ->).
  rewrite (calc_row_fields _ _ _ _ _ _ _ _ Hg He) in Hstep.
  injection Hstep as <- <-. split.
  - rewrite (calc_rows_keep _ _ _ _ _ Hrest Hafter). apply od_get_set_eq.
  - intros ->. set_solver.
Qed.

End reader_facts.

Section exp_reader_facts.
Import plot_results spec.
Context `{!Python}.

Lemma index_missing (x : string) (l : list string) :
  x ∉ l → index x l = Err ValueError.
Proof.
  induction l as [|y l IH]; simpl; [done|]. intros Hnotin.
  apply not_elem_of_cons in Hnotin as [Hne Hnotin].
  rewrite decide_False by done. by rewrite IH.
Qed.

Lemma index_error (x : string) (l : list string) (e : exn) :
  index x l = Err e → e = ValueError.
Proof.
  induction l as [|y l IH]; simpl; [by intros [= <-]|].
  destruct (decide (y = x)); [done|].
  destruct (index x l); simpl; [done|]. intros [= <-]. by apply IH.
Qed.

(** An iteration of [get_exp_data] that returns files a record that depends
    on the row alone, under the name in the row. *)
Lemma exp_row_inv (n e : nat) (ee : option nat) (f fe : nat)
    (d d' : odict exp_record) (row : list string) :
  exp_row n e ee f fe d row = Ok d' →
  ∃ name r, row !! n = Some name ∧ d' = od_set name r d ∧
            ∀ d2, exp_row n e ee f fe d2 row = Ok (od_set name r d2).
Proof.
  unfold exp_row, getitem.
  destruct (row !! n) as [name|]; simpl; [|done].
  destruct (float_field row e) as [x1|]; simpl; [|done].
  destruct (match ee with Some i => float_field row i | None => Ok 0%float end)
    as [x2|]; simpl; [|done].
  destruct (float_field row f) as [x3|]; simpl; [|done].
  destruct (float_field row fe) as [x4|]; simpl; [|done].
  intros [= <-]. eauto.
Qed.

(** Whether an iteration returns does not depend on the mapping so far. *)
Lemma exp_row_is_ok (n e : nat) (ee : option nat) (f fe : nat)
    (d d' : odict exp_record) (row : list string) :
  is_ok (exp_row n e ee f fe d row) = is_ok (exp_row n e ee f fe d' row).
Proof.
  destruct (exp_row n e ee f fe d row) as [d1|] eqn:H1.
  - apply exp_row_inv in H1 as (name & r & _ & _ & Hany). by rewrite Hany.
  - destruct (exp_row n e ee f fe d' row) as [d2|] eqn:H2; [|done].
    apply exp_row_inv in H2 as (name & r & _ & _ & Hany).
    by rewrite Hany in H1.
Qed.

Lemma float_field_malformed (row : list string) (i : nat) (s : string) :
  row !! i = Some s → float_of_str s = None →
  float_field row i = Err ValueError.
Proof.
  intros Hi Hs. unfold float_field, getitem, py_float. rewrite Hi; simpl.
  by rewrite Hs.
Qed.

Lemma exp_row_malformed (n e : nat) (ee : option nat) (f fe : nat)
    (d : odict exp_record) (row : list string) (i : nat) (s : string) :
  i = e ∨ ee = Some i ∨ i = f ∨ i = fe →
  row !! i = Some s → float_of_str s = None →
  is_ok (exp_row n e ee f fe d row) = false.
Proof.
  intros Hi Hrow Hs.
  pose proof (float_field_malformed _ _ _ Hrow Hs) as Hbad.
  unfold exp_row. destruct (getitem row n); simpl; [|done].
  destruct Hi as [->|Hi]; [by rewrite Hbad|].
  destruct (float_field row e); simpl; [|done].
  destruct Hi as [->|Hi]; [by rewrite Hbad|].
  destruct (match ee with Some i => float_field row i | None => Ok 0%float end);
    simpl; [|done].
  destruct Hi as [-> | ->]; [by rewrite Hbad|].
  destruct (float_field row f); simpl; [|done]. by rewrite Hbad.
Qed.

(** The last iteration for a name decides its record. *)
Lemma exp_rows_last (n e : nat) (ee : option nat) (f fe : nat)
    (before after : list (list string)) (row : list string) (name : string)
    (d0 d : odict exp_record) :
  rfold (exp_row n e ee f fe) d0 (before ++ row :: after) = Ok d →
  row !! n = Some name →
  Forall (λ r, r !! n ≠ Some name) after →
  ∃ r, od_get name d = Some r ∧ exp_row n e ee f fe [] row = Ok [(name, r)].
Proof.
  intros Hrun Hname Hafter. rewrite rfold_app in Hrun.
  destruct (rfold (exp_row n e ee f fe) d0 before) as [d1|]; simpl in Hrun;
    [|done].
  destruct (exp_row n e ee f fe d1 row) as [d2|] eqn:Hstep; simpl in Hrun;
    [|done].
  apply exp_row_inv in Hstep as (name' & r & Hname' & -> & Hany).
  assert (name' = name) as -> by congruence.
  exists r. split; [|by rewrite Hany].
  assert (od_get name (od_set name r d1) = Some r) as Hnow
    by apply od_get_set_eq.
  revert Hrun Hnow. generalize (od_set name r d1). clear Hany Hname'.
  induction after as [|row' after IH]; intros d2; simpl.
  - by intros [= <-].
  - apply Forall_cons in Hafter as [Hrow' Hafter].
    destruct (exp_row n e ee f fe d2 row') as [d3|] eqn:Hstep; simpl; [|done].
    intros Hrun Hnow. apply (IH Hafter d3 Hrun).
    apply exp_row_inv in Hstep as (name' & r' & Hname' & -> & _).
    rewrite od_get_set_ne; [done|congruence].
Qed.

Lemma exp_rows_NoDup (n e : nat) (ee : option nat) (f fe : nat)
    (rows : list (list string)) (d0 d : odict exp_record) :
  rfold (exp_row n e ee f fe) d0 rows = Ok d →
  NoDup (od_keys d0) → NoDup (od_keys d).
Proof.
  revert d0. induction rows as [|row rows IH]; intros d0; simpl.
  - by intros [= <-].
  - destruct (exp_row n e ee f fe d0 row) as [d1|] eqn:Hstep; simpl; [|done].
    intros Hrun Hnd. apply (IH _ Hrun).
    apply exp_row_inv in Hstep as (name & r & _ & -> & _).
    by apply od_keys_set_NoDup.
Qed.

(** A loop of such iterations returns exactly when each does on its own. *)
Lemma exp_rows_is_ok (n e : nat) (ee : option nat) (f fe : nat)
    (rows : list (list string)) (d0 : odict exp_record) :
  is_ok (rfold (exp_row n e ee f fe) d0 rows) = true ↔
  Forall (λ row, is_ok (exp_row n e ee f fe [] row) = true) rows.
Proof.
  revert d0. induction rows as [|row rows IH]; intros d0; simpl.
  - split; [constructor|done].
  - rewrite Forall_cons, <-(IH []), (exp_row_is_ok _ _ _ _ _ [] d0).
    destruct (exp_row n e ee f fe d0 row) as [d1|] eqn:Hstep; simpl.
    + rewrite (IH d1), <-(IH []). naive_solver.
    + naive_solver.
Qed.

End exp_reader_facts.

Section calc_reader_facts.
Import plot_results spec.
Context `{!Python}.

Lemma calc_rows_NoDup (rows : list (list string)) (d0 d : odict calc_record)
    (w : list event) :
  mfold calc_row d0 rows = (w, Ok d) → NoDup (od_keys d0) → NoDup (od_keys d).
Proof.
  revert d0 w. induction rows as [|row rows IH]; intros d0 w; simpl.
  - by intros [= _ <-].
  - intros Hrun Hnd.
    apply bind_inv_ok in Hrun as (w1 & d1 & w2 & Hstep & Hrest & _).
    apply (IH _ _ Hrest).
    destruct (calc_row_inv _ _ _ _ Hstep)
      as (i & j & gs & es & rest & g & e & -> & Hg & He).
    rewrite (calc_row_fields _ _ _ _ _ _ _ _ Hg He) in Hstep.
    injection Hstep as _ <-. by apply od_keys_set_NoDup.
Qed.

Lemma calc_row_is_ok (d d' : odict calc_record) (row : list string) :
  is_ok (calc_row d row).2 = is_ok (calc_row d' row).2.
Proof.
  destruct (calc_row d row) as [w [d1|err]] eqn:H1.
  - destruct (calc_row_inv _ _ _ _ H1)
      as (i & j & gs & es & rest & g & e & -> & Hg & He).
    by rewrite (calc_row_fields d' _ _ _ _ _ _ _ Hg He).
  - destruct (calc_row d' row) as [w' [d2|err']] eqn:H2; [|done].
    destruct (calc_row_inv _ _ _ _ H2)
      as (i & j & gs & es & rest & g & e & -> & Hg & He).
    by rewrite (calc_row_fields d _ _ _ _ _ _ _ Hg He) in H1.
Qed.

Lemma calc_rows_is_ok (rows : list (list string)) (d0 : odict calc_record) :
  is_ok (mfold calc_row d0 rows).2 = true ↔
  Forall (λ row, is_ok (calc_row [] row).2 = true) rows.
Proof.
  revert d0. induction rows as [|row rows IH]; intros d0; simpl.
  - split; [constructor|done].
  - rewrite Forall_cons, (calc_row_is_ok [] d0).
    destruct (calc_row d0 row) as [w [d1|err]] eqn:Hstep; simpl.
    + rewrite <-(IH d1). destruct (mfold calc_row d1 rows) as [w' r].
      simpl. naive_solver.
    + naive_solver.
Qed.

End calc_reader_facts.

(** ** Properties of the readers *)

Section reader_properties.
Import plot_results spec.
Context `{!Python}.

(** C1, as the code has it.  A row of the calculated file whose standard
    error parses to 0.003 is filed with the binary64 sum 0.003 + 0.01, which is
    0.013000000000000001, and one warning is issued for it; a row whose
    standard error parses to 0.02 is filed with 0.02 and without a warning.
    The same holds of the mapping that the reader returns, for a row that no
    later row replaces. *)
Theorem calc_reader_errors_0003_and_002 (i j gs es : string)
    (rest : list string) (g : float) :
  float_of_str gs = Some g →
  let row := i :: j :: gs :: es :: rest in
  let tag := calc_tag i j in
  let stored err :=
    {| ligand_i := i; ligand_j := j; ddG := g; ddG_err := err |} in
  (float_of_str es = Some 0.003%float →
     (∀ d, calc_row d row =
             ([Warn (padding_warning tag)],
              Ok (od_set tag (stored 0.013000000000000001%float) d)))
     ∧ ∀ headers before after w d,
         get_calc_data (headers :: before ++ row :: after) = (w, Ok d) →
         Forall (λ r, row_tag r ≠ Some tag) after →
         od_get tag d = Some (stored 0.013000000000000001%float)
         ∧ Warn (padding_warning tag) ∈ w)
  ∧ (float_of_str es = Some 0.02%float →
     (∀ d, calc_row d row = ([], Ok (od_set tag (stored 0.02%float) d)))
     ∧ ∀ headers before after w d,
         get_calc_data (headers :: before ++ row :: after) = (w, Ok d) →
         Forall (λ r, row_tag r ≠ Some tag) after →
         od_get tag d = Some (stored 0.02%float)).
Proof.
  intros Hg row tag stored. split; intros He; split.
  - intros d. unfold row. by rewrite (calc_row_fields _ _ _ _ _ _ _ _ Hg He).
  - intros headers before after w d Hrun Hafter.
    destruct (get_calc_data_row _ _ _ _ _ _ _ _ _ _ _ _ Hrun Hg He Hafter)
      as [Hget Hwarn].
    split; [exact Hget|by apply Hwarn].
  - intros d. unfold row. by rewrite (calc_row_fields _ _ _ _ _ _ _ _ Hg He).
  - intros headers before after w d Hrun Hafter.
    by destruct (get_calc_data_row _ _ _ _ _ _ _ _ _ _ _ _ Hrun Hg He Hafter).
Qed.

(** C2, as the code has it.  A row of the calculated file whose standard
    error parses to a number below 0.01 is filed with that number plus 0.01
    (not with 0.01), one warning is issued for it and the iteration returns.
    The same holds of the mapping that the reader returns, for a row that no
    later row replaces. *)
Theorem calc_reader_pads_small_errors (i j gs es : string)
    (rest : list string) (g e : float) :
  float_of_str gs = Some g →
  float_of_str es = Some e →
  PrimFloat.ltb e 0.01 = true →
  let row := i :: j :: gs :: es :: rest in
  let tag := calc_tag i j in
  let stored :=
    {| ligand_i := i; ligand_j := j; ddG := g;
       ddG_err := PrimFloat.add e 0.01 |} in
  (∀ d, calc_row d row =
          ([Warn (padding_warning tag)], Ok (od_set tag stored d)))
  ∧ ∀ headers before after w d,
      get_calc_data (headers :: before ++ row :: after) = (w, Ok d) →
      Forall (λ r, row_tag r ≠ Some tag) after →
      od_get tag d = Some stored ∧ Warn (padding_warning tag) ∈ w.
Proof.
  intros Hg He Hlt row tag stored. split.
  - intros d. unfold row.
    rewrite (calc_row_fields _ _ _ _ _ _ _ _ Hg He). unfold padded.
    by rewrite Hlt.
  - intros headers before after w d Hrun Hafter.
    destruct (get_calc_data_row _ _ _ _ _ _ _ _ _ _ _ _ Hrun Hg He Hafter)
      as [Hget Hwarn].
    unfold padded in Hget. rewrite Hlt in Hget. split; [exact Hget|by apply Hwarn].
Qed.

(** C6.  A header row that lacks one of the four required columns makes the
    experimental reader raise [ValueError] (the column is not found), whatever
    the rows; a data row with a field of a numeric column that is not a number
    makes it raise as well.  A reader that raises returns no mapping. *)
Theorem get_exp_data_fails_fast (headers : list string)
    (rows : list (list string)) :
  (∀ column,
     column ∈ ["Ligand name"; "Exp. dG (kcal/mol)"; "Pred. dG (kcal/mol)";
               "Pred. dG std. error (kcal/mol)"] →
     column ∉ headers →
     get_exp_data (headers :: rows) = Err ValueError)
  ∧ (∀ column i row s,
       column ∈ ["Exp. dG (kcal/mol)"; "Exp. dG error (kcal/mol)";
                 "Pred. dG (kcal/mol)"; "Pred. dG std. error (kcal/mol)"] →
       index column headers = Ok i →
       row ∈ rows → row !! i = Some s → float_of_str s = None →
       ∃ e, get_exp_data (headers :: rows) = Err e).
Proof.
  split.
  - intros column Hreq Hmissing. apply index_missing in Hmissing.
    unfold get_exp_data.
    destruct (index "Ligand name" headers) as [n|e1] eqn:H1; simpl;
      [|by rewrite (index_error _ _ _ H1)].
    destruct (index "Exp. dG (kcal/mol)" headers) as [e|e2] eqn:H2; simpl;
      [|by rewrite (index_error _ _ _ H2)].
    destruct (index "Pred. dG (kcal/mol)" headers) as [f|e3] eqn:H3; simpl;
      [|by rewrite (index_error _ _ _ H3)].
    destruct (index "Pred. dG std. error (kcal/mol)" headers) as [fe|e4] eqn:H4;
      simpl; [|by rewrite (index_error _ _ _ H4)].
    repeat (apply elem_of_cons in Hreq as [->|Hreq]; [congruence|]).
    by apply elem_of_nil in Hreq.
  - intros column i row s Hcol Hidx Hrow Hfield Hbad.
    assert (is_ok (get_exp_data (headers :: rows)) = false) as Hfail;
      [|destruct (get_exp_data (headers :: rows)); [done|eauto]].
    unfold get_exp_data.
    destruct (index "Ligand name" headers) as [n|] eqn:H1; simpl; [|done].
    destruct (index "Exp. dG (kcal/mol)" headers) as [e|] eqn:H2; simpl;
      [|done].
    destruct (index "Pred. dG (kcal/mol)" headers) as [f|] eqn:H3; simpl;
      [|done].
    destruct (index "Pred. dG std. error (kcal/mol)" headers) as [fe|] eqn:H4;
      simpl; [|done].
    apply (rfold_raises _ _ _ row Hrow). intros d.
    apply (exp_row_malformed _ _ _ _ _ _ _ i s); [|done..].
    repeat (apply elem_of_cons in Hcol as [->|Hcol];
            [rewrite ?H2, ?H3, ?H4 in Hidx; rewrite ?Hidx; naive_solver|]).
    by apply elem_of_nil in Hcol.
Qed.

End reader_properties.

Section repeated_keys.
Import plot_results spec.
Context `{!Python}.

(** With a usable header row, the experimental reader is a loop of [exp_row]
    at fixed column positions. *)
Lemma get_exp_data_loop (headers : list string) :
  is_ok (get_exp_data [headers]) = true →
  ∃ n e ee f fe,
    index "Ligand name" headers = Ok n ∧
    ∀ rows, get_exp_data (headers :: rows) = rfold (exp_row n e ee f fe) [] rows.
Proof.
  unfold get_exp_data.
  destruct (index "Ligand name" headers) as [n|]; simpl; [|done].
  destruct (index "Exp. dG (kcal/mol)" headers) as [e|]; simpl; [|done].
  destruct (index "Pred. dG (kcal/mol)" headers) as [f|]; simpl; [|done].
  destruct (index "Pred. dG std. error (kcal/mol)" headers) as [fe|]; simpl;
    [|done].
  intros _. eauto 8.
Qed.

(** C9, as the code has it.  Neither reader raises because a key repeats: with
    a usable header row, a file is read exactly when each of its rows is
    readable on its own.  The mapping returned has each key once, and under a
    key the record of the last row with that key; the records of the earlier
    rows with that key are replaced without an error or a warning. *)
Theorem readers_keep_last_row_of_key (headers : list string)
    (rows : list (list string)) :
  (is_ok (get_exp_data [headers]) = true →
     (is_ok (get_exp_data (headers :: rows)) = true ↔
      Forall (λ row, is_ok (get_exp_data [headers; row]) = true) rows)
     ∧ ∀ d, get_exp_data (headers :: rows) = Ok d →
         NoDup (od_keys d)
         ∧ ∀ n before row after name,
             index "Ligand name" headers = Ok n →
             rows = before ++ row :: after →
             row !! n = Some name →
             Forall (λ r, r !! n ≠ Some name) after →
             ∃ r, od_get name d = Some r
                  ∧ get_exp_data [headers; row] = Ok [(name, r)])
  ∧ (is_ok (get_calc_data (headers :: rows)).2 = true ↔
     Forall (λ row, is_ok (get_calc_data [headers; row]).2 = true) rows)
  ∧ ∀ w d, get_calc_data (headers :: rows) = (w, Ok d) →
      NoDup (od_keys d)
      ∧ ∀ before row after tag,
          rows = before ++ row :: after →
          row_tag row = Some tag →
          Forall (λ r, row_tag r ≠ Some tag) after →
          ∃ r w', od_get tag d = Some r
                  ∧ get_calc_data [headers; row] = (w', Ok [(tag, r)]).
Proof.
  split; [|split].
  - intros Hheaders.
    destruct (get_exp_data_loop _ Hheaders) as (n & e & ee & f & fe & Hn & Hloop).
    split.
    + rewrite Hloop, exp_rows_is_ok. apply Forall_proper; [|done].
      intros row. rewrite Hloop. simpl. by rewrite rbind_ret.
    + intros d Hrun. rewrite Hloop in Hrun. split.
      * apply (exp_rows_NoDup _ _ _ _ _ _ _ _ Hrun). constructor.
      * intros n' before row after name Hn' -> Hname Hafter.
        assert (n' = n) as -> by congruence.
        destruct (exp_rows_last _ _ _ _ _ _ _ _ _ _ _ Hrun Hname Hafter)
          as (r & Hget & Hrow).
        exists r. split; [done|]. rewrite Hloop. simpl. by rewrite Hrow.
  - simpl. rewrite calc_rows_is_ok. apply Forall_proper; [|done].
    intros row. by rewrite bind_ret.
  - intros w d Hrun. split.
    + apply (calc_rows_NoDup _ _ _ _ Hrun). constructor.
    + intros before row after tag -> Htag Hafter.
      pose proof Hrun as Hrun'. simpl in Hrun'. rewrite mfold_app in Hrun'.
      apply bind_inv_ok in Hrun' as (w1 & d1 & w2 & _ & Hrun' & _).
      simpl in Hrun'.
      apply bind_inv_ok in Hrun' as (w3 & d3 & w4 & Hstep & _ & _).
      destruct (calc_row_inv _ _ _ _ Hstep)
        as (i & j & gs & es & rest & g & e & -> & Hg & He).
      simpl in Htag. injection Htag as <-.
      destruct (get_calc_data_row _ _ _ _ _ _ _ _ _ _ _ _ Hrun Hg He Hafter)
        as [Hget _].
      eexists _, _. split; [exact Hget|].
      simpl. rewrite bind_ret.
      by rewrite (calc_row_fields [] _ _ _ _ _ _ _ Hg He).
Qed.

End repeated_keys.

(** ** The plot reports *)

Section pairing_facts.
Import plot_results spec.
Implicit Types (openfe_nodes : list (string * gmap string float)).

Lemma filter_name_nil openfe_nodes (entry : string) :
  filter (λ node : string * gmap string float, node.1 = entry) openfe_nodes = []
  ↔ entry ∉ openfe_nodes.*1.
Proof.
  induction openfe_nodes as [|[name attrs] l IH]; simpl.
  - split; [set_solver|done].
  - rewrite filter_cons. simpl. destruct (decide (name = entry)) as [->|Hne].
    + split; [done|set_solver].
    + rewrite IH. set_solver.
Qed.

Lemma pair_entry_absent openfe_nodes (acc : paired) (entry : string)
    (r : exp_record) :
  entry ∉ openfe_nodes.*1 → pair_entry openfe_nodes acc (entry, r) = Ok acc.
Proof.
  intros Habsent. apply filter_name_nil in Habsent. unfold pair_entry.
  by rewrite Habsent.
Qed.


Lemma collect_pairs_no_node openfe_nodes (exp_data : odict exp_record)
    (acc : paired) :
  Forall (λ entry, entry ∉ openfe_nodes.*1) (od_keys exp_data) →
  rfold (pair_entry openfe_nodes) acc exp_data = Ok acc.
Proof.
  unfold od_keys.
  induction exp_data as [|[entry r] d IH]; [done|]. rewrite fmap_cons.
  intros [Habsent Hrest]%Forall_cons. cbn [rfold].
  rewrite pair_entry_absent by done. cbn [rbind]. by apply IH.
Qed.

Lemma matched_names openfe_nodes (exp_data : odict exp_record) :
  (λ m : string * exp_record * gmap string float, m.1.1)
    <$> matched openfe_nodes exp_data
  = filter (λ entry, entry ∈ openfe_nodes.*1) (od_keys exp_data).
Proof.
  unfold matched, od_keys.
  induction exp_data as [|[entry r] d IH]; [done|].
  rewrite fmap_cons, filter_cons. cbn [omap list_omap fst snd].
  destruct (decide (entry ∈ openfe_nodes.*1)) as [Hin|Hout].
  - destruct (filter _ openfe_nodes) as [|node l] eqn:Hf.
    + by apply filter_name_nil in Hf.
    + simpl. f_equal. exact IH.
  - apply filter_name_nil in Hout. rewrite Hout. exact IH.
Qed.

(** The five lists after the loop, read off the matched entries. *)
Lemma collect_pairs_matched openfe_nodes (exp_data : odict exp_record)
    (acc p : paired) :
  rfold (pair_entry openfe_nodes) acc exp_data = Ok p →
  let m := matched openfe_nodes exp_data in
  fep p = fep acc ++ ((λ x, fep_dG x.1.2) <$> m)
  ∧ fep_err p = fep_err acc ++ ((λ x, fep_dG_err x.1.2) <$> m)
  ∧ Some <$> dg_openfe p
      = (Some <$> dg_openfe acc) ++ ((λ x, x.2 !! "calc_DG") <$> m)
  ∧ Some <$> openfe_err p
      = (Some <$> openfe_err acc) ++ ((λ x, x.2 !! "calc_dDG") <$> m)
  ∧ Some <$> exp p = (Some <$> exp acc) ++ ((λ x, x.2 !! "exp_DG") <$> m).
Proof.
  revert acc. unfold matched.
  induction exp_data as [|[entry r] d IH]; intros acc.
  - intros [= <-]. simpl. by rewrite !(right_id_L [] (++)).
  - cbn [rfold omap list_omap fst snd]. unfold pair_entry at 1.
    destruct (filter _ openfe_nodes) as [|[name attrs] l] eqn:Hf.
    + cbn [rbind head fmap option_fmap option_map]. apply IH.
    + unfold getkey. cbn [snd].
      destruct (attrs !! "calc_DG") as [c|] eqn:Hc; [|done].
      destruct (attrs !! "calc_dDG") as [ce|] eqn:Hce; [|done].
      destruct (attrs !! "exp_DG") as [e|] eqn:He; [|done].
      cbn [rbind]. intros Hrun.
      apply IH in Hrun as (H1 & H2 & H3 & H4 & H5). 
      cbn [fep fep_err dg_openfe openfe_err exp] in *.
      rewrite H1, H2, H3, H4, H5. simpl.
      rewrite !fmap_app, <-!(assoc_L (++)). simpl.
      by rewrite Hc, Hce, He.
Qed.

End pairing_facts.
Section plot_properties.
Import plot_results spec.
Context `{!Python, !Numpy, !Cinnabar}.

Lemma batch_raises_plot_batch (femap : FEMap) (exp_data : odict exp_record)
    (f1 f2 f3 f4 : string) (statistics : list string) (w : list event)
    (e : exn) :
  batch_raises femap exp_data f1 f2 f3 f4 statistics w e ↔
  plot_batch femap exp_data f1 f2 f3 f4 statistics = (w, Err e).
Proof.
  unfold batch_raises, plot_batch.
  destruct (plot_femap femap exp_data f1 f2 statistics) as [w1 [[]|e1]];
    cbn [bind].
  - destruct (plot_schrodinger_comparison exp_data f3 statistics)
      as [w2 [[]|e2]]; cbn [bind].
    + destruct (plot_openfe_schrodinger_comparison femap exp_data f4 statistics)
        as [w3 [[]|e3]].
      * naive_solver.
      * split.
        -- intros [?|[(?&?&?&?&?)|(?&?&?&?&?&?&?)]]; by simplify_eq.
        -- intros [= <- <-]. right; right. by eexists _, _, _.
    + split.
      * intros [?|[(?&?&?&?&?)|(?&?&?&?&?&?&?)]]; by simplify_eq.
      * intros [= <- <-]. right; left. by eexists _, _.
  - split.
    + intros [?|[(?&?&?&?&?)|(?&?&?&?&?&?&?)]]; by simplify_eq.
    + intros [= <- <-]. by left.
Qed.


Lemma py_truediv_inv (s : float) (n : nat) (q : float) :
  py_truediv s n = Ok q → n ≠ 0 ∧ q = PrimFloat.div s (float_of_nat n).
Proof. destruct n; simpl; [done|]. by intros [= <-]. Qed.

(** The one call of [_master_plot] that [plot_femap] makes. *)
Lemma plot_femap_call (femap : FEMap) (exp_data : odict exp_record)
    (f1 f2 : string) (statistics : list string) (w : list event)
    (res : result unit) (call : master_plot_call) :
  plot_femap femap exp_data f1 f2 statistics = (w, res) →
  MasterPlot call ∈ w →
  ∃ g shift x y xerr yerr,
    to_legacy_graph femap = Ok g ∧ exp_shift exp_data = Ok shift
    ∧ node_column g "exp_DG" = Ok x ∧ node_column g "calc_DG" = Ok y
    ∧ node_column g "exp_dDG" = Ok xerr ∧ node_column g "calc_dDG" = Ok yerr
    ∧ call = {| mp_x := centre x shift; mp_y := centre y shift;
                mp_xerr := xerr; mp_yerr := yerr;
                mp_statistics := statistics;
                mp_title := "Experiment vs OpenFE";
                mp_xlabel := "experimental"; mp_ylabel := "openfe";
                mp_filename := f2; mp_shift := None |}.
Proof.
  unfold plot_femap, call_plot_DDGs, call_master_plot, lift, emit.
  destruct (to_legacy_graph femap) as [g|] eqn:Heq1; cbn [bind app];
    [|intros [= <- _]; set_solver].
  destruct (plot_DDGs g f1) as [[]|] eqn:Heq0; cbn [bind app];
    [|intros [= <- _]; set_solver].
  destruct (exp_shift exp_data) as [shift|] eqn:Heq2; cbn [bind app];
    [|intros [= <- _]; set_solver].
  destruct (node_column g "exp_DG") as [x|] eqn:Heq3; cbn [bind app];
    [|intros [= <- _]; set_solver].
  destruct (node_column g "calc_DG") as [y|] eqn:Heq4; cbn [bind app];
    [|intros [= <- _]; set_solver].
  destruct (node_column g "exp_dDG") as [xerr|] eqn:Heq5; cbn [bind app];
    [|intros [= <- _]; set_solver].
  destruct (node_column g "calc_dDG") as [yerr|] eqn:Heq6; cbn [bind app];
    [|intros [= <- _]; set_solver].
  destruct (_master_plot _); intros [= <- _] Hin.
  all: (apply elem_of_cons in Hin as [[=]|Hin];
     apply list_elem_of_singleton in Hin as [= ->]; eauto 15).
Qed.

(** The one call of [_master_plot] that
    [plot_openfe_schrodinger_comparison] makes. *)
Lemma plot_openfe_call (femap : FEMap) (exp_data : odict exp_record)
    (filename : string) (statistics : list string) (w : list event)
    (res : result unit) (call : master_plot_call) :
  plot_openfe_schrodinger_comparison femap exp_data filename statistics
    = (w, res) →
  MasterPlot call ∈ w →
  ∃ g p shift,
    to_legacy_graph femap = Ok g ∧ collect_pairs (nodes g) exp_data = Ok p
    ∧ paired_shift p = Ok shift
    ∧ call = {| mp_x := fep p; mp_y := centre (dg_openfe p) shift;
                mp_xerr := fep_err p; mp_yerr := openfe_err p;
                mp_statistics := statistics; mp_title := "FEP+ vs OpenFE";
                mp_xlabel := "FEP+"; mp_ylabel := "OpenFE";
                mp_filename := filename; mp_shift := None |}.
Proof.
  unfold plot_openfe_schrodinger_comparison, call_master_plot, lift, emit.
  destruct (to_legacy_graph femap) as [g|] eqn:Heq7; cbn [bind app];
    [|intros [= <- _]; set_solver].
  destruct (collect_pairs (nodes g) exp_data) as [p|] eqn:Heq8; cbn [bind app];
    [|intros [= <- _]; set_solver].
  destruct (paired_shift p) as [shift|] eqn:Heq9; cbn [bind app];
    [|intros [= <- _]; set_solver].
  destruct (_master_plot _); intros [= <- _] Hin;
    (apply list_elem_of_singleton in Hin as [= ->]; eauto 10).
Qed.


(** C3, as the code has it.  In the computed-vs-experiment report the shift
    added to both plotted arrays is the mean of the experimental dG over all
    the ligands of the experimental mapping.  In the computed-vs-third-party
    report the shift, added to the computed array only, is the mean of the
    [exp_DG] values of the graph over the experimental ligands that are nodes
    of the graph, which are the ligands that the report plots. *)
Theorem absolute_reports_shift (femap : FEMap) (exp_data : odict exp_record)
    (w : list event) (res : result unit) (call : master_plot_call) :
  MasterPlot call ∈ w →
  (∀ ddg_filename dg_filename statistics,
     plot_femap femap exp_data ddg_filename dg_filename statistics = (w, res) →
     ∃ g x y,
       to_legacy_graph femap = Ok g
       ∧ node_column g "exp_DG" = Ok x ∧ node_column g "calc_DG" = Ok y
       ∧ exp_data ≠ []
       ∧ let shift :=
           PrimFloat.div (py_sum (exp_dG <$> od_values exp_data))
             (float_of_nat (length exp_data)) in
         mp_x call = centre x shift ∧ mp_y call = centre y shift)
  ∧ (∀ filename statistics,
       plot_openfe_schrodinger_comparison femap exp_data filename statistics
         = (w, res) →
       ∃ g p,
         to_legacy_graph femap = Ok g
         ∧ collect_pairs (nodes g) exp_data = Ok p
         ∧ Some <$> exp p
             = (λ m, m.2 !! "exp_DG") <$> matched (nodes g) exp_data
         ∧ exp p ≠ []
         ∧ let shift :=
             PrimFloat.div (py_sum (exp p)) (float_of_nat (length (exp p))) in
           mp_x call = fep p ∧ mp_y call = centre (dg_openfe p) shift).
Proof.
  intros Hin. split.
  - intros f1 f2 statistics Hrun.
    destruct (plot_femap_call _ _ _ _ _ _ _ _ Hrun Hin)
      as (g & shift & x & y & xerr & yerr & Hg & Hshift & Hx & Hy & _ & _ & ->).
    apply py_truediv_inv in Hshift as [Hlen ->].
    exists g, x, y. repeat split; try done. by intros ->.
  - intros filename statistics Hrun.
    destruct (plot_openfe_call _ _ _ _ _ _ _ Hrun Hin)
      as (g & p & shift & Hg & Hp & Hshift & ->).
    apply py_truediv_inv in Hshift as [Hlen ->].
    exists g, p. repeat split; try done.
    + by destruct (collect_pairs_matched _ _ _ _ Hp) as (_ & _ & _ & _ & ?).
    + intros Hnil. by rewrite Hnil in Hlen.
Qed.

(** C4.  When one of the three reports of the first batch raises
    [ValueError], [run] prints the notice once and runs the three reports
    again, in the same order, with the statistics [["RMSE"; "MUE"]].  What
    that second batch does, raising included, is what [run] does: there is no
    further handler. *)
Theorem run_retries_once_with_reduced_statistics
    (calculated experiment : list (list string)) (f1 f2 f3 f4 : string)
    (exp_data : odict exp_record) (calc_data : odict calc_record)
    (femap : FEMap) (w0 w1 : list event) :
  get_exp_data experiment = Ok exp_data →
  get_calc_data calculated = (w0, Ok calc_data) →
  get_femap exp_data calc_data = Ok femap →
  batch_raises femap exp_data f1 f2 f3 f4 default_statistics w1 ValueError →
  let retry :=
    plot_femap femap exp_data f1 f2 ["RMSE"; "MUE"] ;;
    plot_schrodinger_comparison exp_data f3 ["RMSE"; "MUE"] ;;
    plot_openfe_schrodinger_comparison femap exp_data f4 ["RMSE"; "MUE"] in
  run calculated experiment f1 f2 f3 f4
    = (w0 ++ w1 ++ Echo small_sample_notice :: retry.1, retry.2).
Proof.
  intros Hexp Hcalc Hfemap Hbatch retry.
  apply batch_raises_plot_batch in Hbatch.
  unfold run, run_plots, lift. rewrite Hexp. cbn [bind app].
  rewrite Hcalc. cbn [bind app]. rewrite Hfemap. cbn [bind app].
  rewrite Hbatch. unfold try_except_ValueError, emit. cbn [bind app].
  fold (plot_batch femap exp_data f1 f2 f3 f4 ["RMSE"; "MUE"]).
  change (plot_batch femap exp_data f1 f2 f3 f4 ["RMSE"; "MUE"]) with retry.
  by destruct retry as [w2 r2].
Qed.


(** C10.  With a graph none of whose nodes is an experimental ligand the
    third-party report raises [ZeroDivisionError] before plotting; so does the
    computed-vs-experiment report on an empty experimental mapping, once
    [plot_DDGs] has returned.  A [ZeroDivisionError] of a report of the first
    batch is not handled by [run]: it is the outcome of [run], without a
    notice and without a second batch. *)
Theorem empty_mean_raises_ZeroDivisionError (femap : FEMap) (g : DiGraph)
    (exp_data : odict exp_record) (f1 f2 f3 f4 : string) :
  to_legacy_graph femap = Ok g →
  (∀ statistics,
     Forall (λ entry, entry ∉ (nodes g).*1) (od_keys exp_data) →
     plot_openfe_schrodinger_comparison femap exp_data f4 statistics
       = ([], Err ZeroDivisionError))
  ∧ (∀ statistics,
       plot_DDGs g f1 = Ok tt →
       plot_femap femap [] f1 f2 statistics
         = ([PlotDDGs g f1], Err ZeroDivisionError))
  ∧ ∀ w,
      batch_raises femap exp_data f1 f2 f3 f4 default_statistics w
        ZeroDivisionError →
      run_plots femap exp_data f1 f2 f3 f4 = (w, Err ZeroDivisionError)
      ∧ ∀ calculated experiment w0 calc_data,
          get_exp_data experiment = Ok exp_data →
          get_calc_data calculated = (w0, Ok calc_data) →
          get_femap exp_data calc_data = Ok femap →
          run calculated experiment f1 f2 f3 f4
            = (w0 ++ w, Err ZeroDivisionError).
Proof.
  intros Hg. split; [|split].
  - intros statistics Hnone. unfold plot_openfe_schrodinger_comparison.
    rewrite Hg. unfold lift, collect_pairs. cbn [bind app].
    by rewrite (collect_pairs_no_node _ _ _ Hnone).
  - intros statistics Hddg. unfold plot_femap, call_plot_DDGs, lift, emit.
    rewrite Hg. cbn [bind app]. by rewrite Hddg.
  - intros w Hbatch. apply batch_raises_plot_batch in Hbatch.
    assert (run_plots femap exp_data f1 f2 f3 f4 = (w, Err ZeroDivisionError))
      as Hplots by (unfold run_plots; by rewrite Hbatch).
    split; [done|]. intros calculated experiment w0 calc_data Hexp Hcalc Hfemap.
    unfold run, lift. rewrite Hexp. cbn [bind app]. rewrite Hcalc.
    cbn [bind app]. rewrite Hfemap. cbn [bind app]. by rewrite Hplots.
Qed.

End plot_properties.

(** ** The renaming utility *)

Section rename_properties.
Import rename_exp_data.
Context `{!Pandas}.

Lemma _rename_cell (name_mapping : gmap string cell) (cols : list string)
    (row : list cell) (i : nat) (v : cell) :
  index "Ligand Name" cols = Ok i →
  row !! i = Some v →
  _rename name_mapping cols row =
    match name_mapping !! str_of_cell v with
    | Some new => Ok new
    | None => Err (RuntimeError (rename_error (str_of_cell v)))
    end.
Proof.
  intros Hi Hv. unfold _rename, row_get, getkey. rewrite Hi, Hv. simpl.
  by destruct (name_mapping !! str_of_cell v).
Qed.

(** [apply] over rows whose names are all mapped. *)
Lemma rmap_rename_mapped (name_mapping : gmap string cell)
    (cols : list string) (i : nat) (rs : list (list cell)) :
  index "Ligand Name" cols = Ok i →
  Forall (λ r, ∃ c, r !! i = Some c
                    ∧ is_Some (name_mapping !! str_of_cell c)) rs →
  ∃ news,
    rmap (_rename name_mapping cols) rs = Ok news
    ∧ Forall2 (λ r new, ∃ c, r !! i = Some c
                             ∧ name_mapping !! str_of_cell c = Some new)
        rs news.
Proof.
  intros Hi. induction 1 as [|r rs (c & Hc & [new Hnew]) _ (news & Hrun & Hall)].
  - by exists [].
  - exists (new :: news). split.
    + simpl. rewrite (_rename_cell _ _ _ _ _ Hi Hc), Hnew. simpl.
      by rewrite Hrun.
    + constructor; eauto.
Qed.

(** C5, as the code has it.  When a row of the input has a ligand name that
    the mapping lacks, [main] raises [RuntimeError] with a message that quotes
    the name of the first such row (the names of the rows before it being
    mapped), and writes no file; the rows after it are not looked at. *)
Theorem main_unmapped_name_is_fatal (exp_csv : DataFrame cell)
    (name_mapping : gmap string cell) (output : string) (i : nat)
    (before after : list (list cell)) (row : list cell) (v : cell) :
  index "Ligand Name" (columns exp_csv) = Ok i →
  rows exp_csv = before ++ row :: after →
  Forall (λ r, ∃ c, r !! i = Some c
                    ∧ is_Some (name_mapping !! str_of_cell c)) before →
  row !! i = Some v →
  name_mapping !! str_of_cell v = None →
  main exp_csv name_mapping output =
    ([], Err (RuntimeError
                ("Could not convert " +:+ str_of_cell v
                   +:+ " as it was not found in the name mapping."))).
Proof.
  intros Hi Hrows Hbefore Hv Hnone. unfold main, rename_column, lift.
  assert (rmap (_rename name_mapping (columns exp_csv)) (before ++ row :: after)
          = Err (RuntimeError (rename_error (str_of_cell v)))) as Hrun.
  { clear Hrows.
    induction Hbefore as [|r rs (c & Hc & [new Hnew]) _ IH]; simpl.
    - by rewrite (_rename_cell _ _ _ _ _ Hi Hv), Hnone.
    - rewrite (_rename_cell _ _ _ _ _ Hi Hc), Hnew. simpl. by rewrite IH. }
  rewrite <-Hrows in Hrun. rewrite Hrun.
  destruct (rows exp_csv); [by destruct before|done].
Qed.

(** On frames: when every ligand name of a frame with at least one row is in
    the mapping, [main] writes one file and returns.  The frame written has
    the columns and the number of rows of the frame given; each of its rows is
    the given row with the cell of the "Ligand Name" column replaced by the
    mapped value, so every cell of every other column is the cell given. *)
Theorem main_renames_only_ligand_column (exp_csv : DataFrame cell)
    (name_mapping : gmap string cell) (output : string) (i : nat) :
  index "Ligand Name" (columns exp_csv) = Ok i →
  rows exp_csv ≠ [] →
  Forall (λ r, ∃ c, r !! i = Some c
                    ∧ is_Some (name_mapping !! str_of_cell c)) (rows exp_csv) →
  ∃ out,
    main exp_csv name_mapping output = ([ToCsv output out], Ok tt)
    ∧ columns out = columns exp_csv
    ∧ length (rows out) = length (rows exp_csv)
    ∧ (∀ k row, rows exp_csv !! k = Some row →
         ∃ c new, row !! i = Some c
                  ∧ name_mapping !! str_of_cell c = Some new
                  ∧ rows out !! k = Some (<[i := new]> row))
    ∧ (∀ k j, j ≠ i →
         rows out !! k ≫= (.!! j) = rows exp_csv !! k ≫= (.!! j)).
Proof.
  intros Hi Hrows Hmapped.
  destruct (rmap_rename_mapped _ _ _ _ Hi Hmapped) as (news & Hrun & Hall).
  assert (∀ k row, rows exp_csv !! k = Some row →
            ∃ c new, row !! i = Some c
                     ∧ name_mapping !! str_of_cell c = Some new
                     ∧ zip_with (λ row v, <[i := v]> row) (rows exp_csv) news
                         !! k = Some (<[i := new]> row)) as Hrow.
  { intros k row Hk.
    destruct (Forall2_lookup_l _ _ _ _ _ Hall Hk) as (new & Hnew & c & Hc & Hmap).
    exists c, new. split; [done|]. split; [done|].
    rewrite lookup_zip_with, Hk. simpl. by rewrite Hnew. }
  eexists {| columns := columns exp_csv;
             rows := zip_with (λ row v, <[i := v]> row) (rows exp_csv) news |}.
  split; [|split; [|split; [|split]]]; simpl.
  - unfold main, rename_column, lift.
    destruct (rows exp_csv) as [|r0 rs0] eqn:Hsplit; [done|].
    rewrite Hrun. cbn [rbind bind app emit]. unfold set_column.
    by rewrite Hi, Hsplit.
  - done.
  - rewrite length_zip_with. apply Forall2_length in Hall. lia.
  - exact Hrow.
  - intros k j Hne. destruct (rows exp_csv !! k) as [row|] eqn:Hk.
    + destruct (Hrow k row Hk) as (c & new & _ & _ & ->). simpl.
      by apply list_lookup_insert_ne.
    + rewrite lookup_zip_with, Hk. done.
Qed.

End rename_properties.

(** ** The statements on concrete inputs *)

Section examples.
Import plot_results rename_exp_data spec fixtures.
#[local] Existing Instances decimal_python short_numpy example_cinnabar
  string_pandas.

Lemma calc_reader_errors_0003_and_002_example :
  float_of_str "1.0" = Some 1%float
  ∧ float_of_str "0.003" = Some 0.003%float
  ∧ calc_row [] ["A"; "B"; "1.0"; "0.003"]
      = ([Warn (padding_warning "A->B")],
         Ok [("A->B", {| ligand_i := "A"; ligand_j := "B"; ddG := 1%float;
                         ddG_err := 0.013000000000000001%float |})]).
Proof.
  assert (float_of_str "1.0" = Some 1%float) as Hg by reflexivity.
  assert (float_of_str "0.003" = Some 0.003%float) as He by reflexivity.
  split; [exact Hg|]. split; [exact He|].
  destruct (calc_reader_errors_0003_and_002 "A" "B" "1.0" "0.003" [] 1%float
              Hg) as [Hsmall _].
  destruct (Hsmall He) as [Hstep _]. exact (Hstep []).
Defined.

(** C1 fails as stated: the standard error stored for 0.003 is not the float
    0.013. *)
Lemma small_error_is_not_stored_as_0013 :
  ∃ r,
    get_calc_data calc_small_error
      = ([Warn (padding_warning "A->B")], Ok [("A->B", r)])
    ∧ float_of_str "0.003" = Some 0.003%float
    ∧ ddG_err r = 0.013000000000000001%float
    ∧ ddG_err r ≠ 0.013%float.
Proof.
  eexists. split; [vm_compute; reflexivity|]. split; [reflexivity|].
  split; [reflexivity|]. simpl. intros Hsame.
  apply (f_equal (PrimFloat.ltb 0.013%float)) in Hsame.
  vm_compute in Hsame. discriminate Hsame.
Qed.

Lemma calc_reader_pads_small_errors_example :
  float_of_str "1.0" = Some 1%float
  ∧ float_of_str "0.003" = Some 0.003%float
  ∧ PrimFloat.ltb 0.003%float 0.01%float = true
  ∧ calc_row [] ["A"; "B"; "1.0"; "0.003"]
      = ([Warn (padding_warning "A->B")],
         Ok [("A->B", {| ligand_i := "A"; ligand_j := "B"; ddG := 1%float;
                         ddG_err := PrimFloat.add 0.003%float 0.01%float |})]).
Proof.
  assert (float_of_str "1.0" = Some 1%float) as Hg by reflexivity.
  assert (float_of_str "0.003" = Some 0.003%float) as He by reflexivity.
  assert (PrimFloat.ltb 0.003%float 0.01%float = true) as Hlt by reflexivity.
  split; [exact Hg|]. split; [exact He|]. split; [exact Hlt|].
  destruct (calc_reader_pads_small_errors "A" "B" "1.0" "0.003" [] 1%float
              0.003%float Hg He Hlt) as [Hstep _].
  exact (Hstep []).
Defined.

(** C2 fails as stated: the standard error stored for 0.003, which is below
    0.01, is not 0.01. *)
Lemma small_error_is_not_replaced_by_001 :
  ∃ r,
    get_calc_data calc_small_error
      = ([Warn (padding_warning "A->B")], Ok [("A->B", r)])
    ∧ float_of_str "0.003" = Some 0.003%float
    ∧ PrimFloat.ltb 0.003%float 0.01%float = true
    ∧ ddG_err r ≠ 0.01%float.
Proof.
  eexists. split; [vm_compute; reflexivity|]. split; [reflexivity|].
  split; [reflexivity|]. simpl. intros Hsame.
  apply (f_equal (PrimFloat.ltb 0.01%float)) in Hsame.
  vm_compute in Hsame. discriminate Hsame.
Qed.

Lemma get_exp_data_fails_fast_example :
  ("Pred. dG (kcal/mol)" ∉ ["Ligand name"; "Exp. dG (kcal/mol)";
                            "Pred. dG std. error (kcal/mol)"])
  ∧ get_exp_data exp_no_pred = Err ValueError
  ∧ ∃ e, get_exp_data exp_malformed = Err e.
Proof.
  assert ("Pred. dG (kcal/mol)" ∉ ["Ligand name"; "Exp. dG (kcal/mol)";
                                   "Pred. dG std. error (kcal/mol)"]) as Hmissing
    by (intros Hin; repeat (apply elem_of_cons in Hin as [[=]|Hin]);
        by apply elem_of_nil in Hin).
  split; [exact Hmissing|]. split.
  - apply (proj1 (get_exp_data_fails_fast _ _) "Pred. dG (kcal/mol)");
      [|exact Hmissing].
    do 2 apply list_elem_of_further. apply list_elem_of_here.
  - apply (proj2 (get_exp_data_fails_fast exp_header _)
             "Exp. dG (kcal/mol)" 1 ["B"; "n/a"; "-8.5"; "0.1"] "n/a").
    + apply list_elem_of_here.
    + reflexivity.
    + apply list_elem_of_further, list_elem_of_here.
    + reflexivity.
    + reflexivity.
Defined.

Lemma readers_keep_last_row_of_key_example :
  get_exp_data exp_duplicate
    = Ok [("A", {| exp_dG := (-8)%float; exp_dG_err := 0%float;
                   fep_dG := (-8.5)%float; fep_dG_err := 0.1%float |})]
  ∧ ∃ r, od_get "A" [("A", {| exp_dG := (-8)%float; exp_dG_err := 0%float;
                              fep_dG := (-8.5)%float;
                              fep_dG_err := 0.1%float |})] = Some r
         ∧ get_exp_data [exp_header; ["A"; "-8.0"; "-8.5"; "0.1"]]
             = Ok [("A", r)].
Proof.
  split; [reflexivity|].
  destruct (readers_keep_last_row_of_key exp_header
              [["A"; "-10.0"; "-9.5"; "0.1"]; ["A"; "-8.0"; "-8.5"; "0.1"]])
    as [Hexp _].
  assert (is_ok (get_exp_data [exp_header]) = true) as Hheader by reflexivity.
  destruct (Hexp Hheader) as [_ Hlast].
  assert (get_exp_data exp_duplicate
          = Ok [("A", {| exp_dG := (-8)%float; exp_dG_err := 0%float;
                         fep_dG := (-8.5)%float; fep_dG_err := 0.1%float |})])
    as Hrun by reflexivity.
  destruct (Hlast _ Hrun) as [_ Hrow].
  apply (Hrow 0 [["A"; "-10.0"; "-9.5"; "0.1"]] ["A"; "-8.0"; "-8.5"; "0.1"] []
           "A"); [reflexivity..|constructor].
Defined.

(** C9 fails as stated: of two rows with one key, both readers return the
    second only, and neither raises. *)
Lemma repeated_key_rows_are_dropped :
  get_exp_data exp_duplicate
    = Ok [("A", {| exp_dG := (-8)%float; exp_dG_err := 0%float;
                   fep_dG := (-8.5)%float; fep_dG_err := 0.1%float |})]
  ∧ get_calc_data calc_duplicate
      = ([], Ok [("A->B", {| ligand_i := "A"; ligand_j := "B";
                             ddG := 2.5%float; ddG_err := 0.2%float |})]).
Proof. split; vm_compute; reflexivity. Qed.


Lemma absolute_reports_shift_example :
  let out :=
    plot_openfe_schrodinger_comparison graph_A_B exp_data_three
      "openfe_schrodinger_dg.png" ["RMSE"; "MUE"] in
  let call :=
    {| mp_x := [(-9.5)%float; (-8.5)%float];
       mp_y := [(-9.5)%float; (-8.5)%float];
       mp_xerr := [0.1%float; 0.1%float]; mp_yerr := [0.1%float; 0.1%float];
       mp_statistics := ["RMSE"; "MUE"]; mp_title := "FEP+ vs OpenFE";
       mp_xlabel := "FEP+"; mp_ylabel := "OpenFE";
       mp_filename := "openfe_schrodinger_dg.png"; mp_shift := None |} in
  MasterPlot call ∈ out.1
  ∧ ∃ g p,
      to_legacy_graph graph_A_B = Ok g
      ∧ collect_pairs (nodes g) exp_data_three = Ok p
      ∧ Some <$> exp p
          = (λ m, m.2 !! "exp_DG") <$> matched (nodes g) exp_data_three
      ∧ exp p ≠ []
      ∧ mp_x call = fep p
      ∧ mp_y call
          = centre (dg_openfe p)
              (PrimFloat.div (py_sum (exp p)) (float_of_nat (length (exp p)))).
Proof.
  intros out call.
  assert (out = ([MasterPlot call], Ok tt)) as Hout by (vm_compute; reflexivity).
  assert (MasterPlot call ∈ out.1) as Hin
    by (rewrite Hout; apply list_elem_of_here).
  split; [exact Hin|].
  apply (proj2 (absolute_reports_shift (H1 := example_cinnabar) graph_A_B exp_data_three out.1 out.2
                  call Hin) "openfe_schrodinger_dg.png" ["RMSE"; "MUE"]).
  by destruct out.
Defined.

(** C3 fails as stated: with the ligands A, B and C in the experimental file
    and the ligands A and B in the graph, the third-party report shifts by
    -9, the mean over A and B, and not by -8, the mean over the three ligands
    of the file, by which the computed-vs-experiment report shifts. *)
Lemma third_party_shift_is_not_mean_of_all :
  get_exp_data exp_three = Ok exp_data_three
  ∧ exp_shift exp_data_three = Ok (-8)%float
  ∧ (∃ p, collect_pairs (nodes graph_A_B) exp_data_three = Ok p
          ∧ dg_openfe p = [(-9.5)%float; (-8.5)%float]
          ∧ paired_shift p = Ok (-9)%float)
  ∧ (∃ call,
       plot_openfe_schrodinger_comparison graph_A_B exp_data_three
         "openfe_schrodinger_dg.png" ["RMSE"; "MUE"]
         = ([MasterPlot call], Ok tt)
       ∧ mp_y call = centre [(-9.5)%float; (-8.5)%float] (-9)%float
       ∧ mp_y call ≠ centre [(-9.5)%float; (-8.5)%float] (-8)%float).
Proof.
  split; [vm_compute; reflexivity|]. split; [vm_compute; reflexivity|]. split.
  - eexists. split; [vm_compute; reflexivity|]. split; vm_compute; reflexivity.
  - eexists. split; [vm_compute; reflexivity|].
    split; [vm_compute; reflexivity|]. intros Hsame.
    apply (f_equal (λ l, match l with
                         | y :: _ => PrimFloat.ltb y (-9)%float
                         | [] => false
                         end)) in Hsame.
    vm_compute in Hsame. discriminate Hsame.
Qed.

Lemma run_retries_once_with_reduced_statistics_example :
  let first :=
    plot_femap graph_A_B exp_data_three "openfe_experiment_ddg.png"
      "openfe_experiment_dg.png" default_statistics in
  let retry :=
    plot_femap graph_A_B exp_data_three "openfe_experiment_ddg.png"
      "openfe_experiment_dg.png" ["RMSE"; "MUE"] ;;
    plot_schrodinger_comparison exp_data_three "schrodinger_experiment_dg.png"
      ["RMSE"; "MUE"] ;;
    plot_openfe_schrodinger_comparison graph_A_B exp_data_three
      "openfe_schrodinger_dg.png" ["RMSE"; "MUE"] in
  get_exp_data exp_three = Ok exp_data_three
  ∧ first.2 = Err ValueError
  ∧ retry.2 = Ok tt
  ∧ run calc_large_error exp_three "openfe_experiment_ddg.png"
      "openfe_experiment_dg.png" "schrodinger_experiment_dg.png"
      "openfe_schrodinger_dg.png"
    = ([] ++ first.1 ++ Echo small_sample_notice :: retry.1, retry.2).
Proof.
  intros first retry.
  assert (get_exp_data exp_three = Ok exp_data_three) as Hexp
    by (vm_compute; reflexivity).
  assert (first.2 = Err ValueError) as Hfirst by (vm_compute; reflexivity).
  split; [exact Hexp|]. split; [exact Hfirst|].
  split; [vm_compute; reflexivity|].
  eapply (run_retries_once_with_reduced_statistics (H1 := example_cinnabar) calc_large_error exp_three
            _ _ _ _ exp_data_three _ graph_A_B [] first.1 Hexp).
  - vm_compute. reflexivity.
  - vm_compute. reflexivity.
  - left. fold first. rewrite <-Hfirst. by destruct first.
Defined.


Lemma empty_mean_raises_ZeroDivisionError_example :
  to_legacy_graph graph_other = Ok graph_other
  ∧ Forall (λ entry, entry ∉ (nodes graph_other).*1) (od_keys exp_data_two)
  ∧ plot_openfe_schrodinger_comparison graph_other exp_data_two
      "openfe_schrodinger_dg.png" default_statistics
    = ([], Err ZeroDivisionError)
  ∧ plot_femap graph_other [] "openfe_experiment_ddg.png"
      "openfe_experiment_dg.png" default_statistics
    = ([PlotDDGs graph_other "openfe_experiment_ddg.png"],
       Err ZeroDivisionError).
Proof.
  assert (to_legacy_graph graph_other = Ok graph_other) as Hg by reflexivity.
  assert (Forall (λ entry, entry ∉ (nodes graph_other).*1)
            (od_keys exp_data_two)) as Hnone.
  { repeat constructor; intros Hin; simpl in Hin;
      repeat (apply elem_of_cons in Hin as [[=]|Hin]);
      by apply elem_of_nil in Hin. }
  split; [exact Hg|]. split; [exact Hnone|].
  destruct (empty_mean_raises_ZeroDivisionError (H1 := example_cinnabar) graph_other graph_other
              exp_data_two "openfe_experiment_ddg.png"
              "openfe_experiment_dg.png" "schrodinger_experiment_dg.png"
              "openfe_schrodinger_dg.png" Hg) as (Hthird & Hfirst & _).
  split; [exact (Hthird _ Hnone)|]. apply Hfirst. reflexivity.
Defined.

Lemma main_unmapped_name_is_fatal_example :
  index "Ligand Name" (columns frame_unmapped) = Ok 0
  ∧ name_mapping_LigA !! "LigB" = None
  ∧ main frame_unmapped name_mapping_LigA "blinded_experimental_data.csv"
    = ([], Err (RuntimeError
                  "Could not convert LigB as it was not found in the name mapping.")).
Proof.
  assert (index "Ligand Name" (columns frame_unmapped) = Ok 0) as Hi
    by reflexivity.
  assert (name_mapping_LigA !! "LigB" = None) as Hnone
    by (vm_compute; reflexivity).
  split; [exact Hi|]. split; [exact Hnone|].
  apply (main_unmapped_name_is_fatal (H := string_pandas) frame_unmapped name_mapping_LigA
           "blinded_experimental_data.csv" 0 [["LigA"; "-10.0"]] []
           ["LigB"; "-8.0"] "LigB" Hi eq_refl); [|reflexivity|exact Hnone].
  repeat constructor. exists "LigA". split; [reflexivity|].
  exists "CCD-0001". vm_compute. reflexivity.
Defined.

Lemma main_renames_only_ligand_column_example :
  index "Ligand Name" (columns frame_LigA) = Ok 0
  ∧ name_mapping_LigA !! "LigA" = Some "CCD-0001"
  ∧ ∃ out,
      main frame_LigA name_mapping_LigA "blinded_experimental_data.csv"
        = ([ToCsv "blinded_experimental_data.csv" out], Ok tt)
      ∧ columns out = columns frame_LigA
      ∧ rows out !! 0 = Some ["CCD-0001"; "-10.0"].
Proof.
  assert (index "Ligand Name" (columns frame_LigA) = Ok 0) as Hi by reflexivity.
  assert (name_mapping_LigA !! "LigA" = Some "CCD-0001") as Hmapped
    by (vm_compute; reflexivity).
  split; [exact Hi|]. split; [exact Hmapped|].
  destruct (main_renames_only_ligand_column (H := string_pandas) frame_LigA name_mapping_LigA
              "blinded_experimental_data.csv" 0 Hi)
    as (out & Hmain & Hcols & _ & Hrows & _).
  - discriminate.
  - repeat constructor. exists "LigA". split; [reflexivity|]. by exists "CCD-0001".
  - exists out. split; [exact Hmain|]. split; [exact Hcols|].
    destruct (Hrows 0 ["LigA"; "-10.0"] eq_refl) as (c & new & Hc & Hnew & Hout).
    injection Hc as <-. simpl in Hnew.
    assert (new = "CCD-0001") as -> by congruence. exact Hout.
Defined.

End examples.

(** ** Further properties of the readers *)

Section more_odict_facts.
Context {V : Type}.
Implicit Types (d : odict V) (k : string) (v : V).

Lemma od_set_Forall (P : string * V → Prop) d k v :
  Forall P d → P (k, v) → Forall P (od_set k v d).
Proof.
  intros Hd Hkv. induction Hd as [|[k' v'] d Hhead Htail IH]; simpl.
  - by constructor.
  - destruct (decide (k' = k)); constructor; done.
Qed.

Lemma od_set_fresh d k v : k ∉ od_keys d → od_set k v d = d ++ [(k, v)].
Proof.
  unfold od_keys. induction d as [|[k' v'] d IH]; simpl; [done|].
  intros [Hne Hnotin]%not_elem_of_cons.
  rewrite decide_False by done. by rewrite IH.
Qed.

End more_odict_facts.

Section more_reader_properties.
Import plot_results spec vocabulary.
Context `{!Python}.

(** X1.  Without an "Exp. dG error (kcal/mol)" column, every record that the
    experimental reader returns has the experimental error 0. *)
Theorem get_exp_data_default_error (headers : list string)
    (rows : list (list string)) (d : odict exp_record) :
  "Exp. dG error (kcal/mol)" ∉ headers →
  get_exp_data (headers :: rows) = Ok d →
  Forall (λ item, exp_dG_err item.2 = 0%float) d.
Proof.
  intros Hmissing%index_missing. unfold get_exp_data. rewrite Hmissing.
  destruct (index "Ligand name" headers) as [n|]; simpl; [|done].
  destruct (index "Exp. dG (kcal/mol)" headers) as [e|]; simpl; [|done].
  destruct (index "Pred. dG (kcal/mol)" headers) as [f|]; simpl; [|done].
  destruct (index "Pred. dG std. error (kcal/mol)" headers) as [fe|]; simpl;
    [|done].
  assert (Forall (λ item : string * exp_record, exp_dG_err item.2 = 0%float) [])
    as Hnil by constructor.
  revert Hnil. generalize (@nil (string * exp_record)).
  induction rows as [|row rows IH]; intros d0 Hd0; simpl.
  - by intros [= <-].
  - destruct (exp_row n e None f fe d0 row) as [d1|] eqn:Hstep; simpl; [|done].
    apply IH. revert Hstep. unfold exp_row.
    destruct (getitem row n) as [nm|]; simpl; [|done].
    destruct (float_field row e) as [x1|]; simpl; [|done].
    destruct (float_field row f) as [x3|]; simpl; [|done].
    destruct (float_field row fe) as [x4|]; simpl; [|done].
    intros [= <-]. by apply od_set_Forall.
Qed.

(** The keys after a loop of [exp_row]: those before it and the names of the
    rows. *)
Lemma exp_rows_keys (n e : nat) (ee : option nat) (f fe : nat)
    (rows : list (list string)) (d0 d : odict exp_record) (name : string) :
  rfold (exp_row n e ee f fe) d0 rows = Ok d →
  name ∈ od_keys d ↔
  name ∈ od_keys d0 ∨ ∃ row, row ∈ rows ∧ row !! n = Some name.
Proof.
  revert d0. induction rows as [|row rows IH]; intros d0; simpl.
  - intros [= <-]. split; [by left|]. intros [?|(row & Hin & _)]; [done|].
    by apply elem_of_nil in Hin.
  - destruct (exp_row n e ee f fe d0 row) as [d1|] eqn:Hstep; simpl; [|done].
    intros Hrun. rewrite (IH _ Hrun).
    apply exp_row_inv in Hstep as (name' & r & Hname' & -> & _).
    rewrite od_keys_set. split.
    + intros [[->|?]|(row' & Hin & Hrow')].
      * right. exists row. split; [apply list_elem_of_here|done].
      * by left.
      * right. exists row'. split; [by apply list_elem_of_further|done].
    + intros [?|(row' & Hin & Hrow')]; [by left; right|].
      apply elem_of_cons in Hin as [->|Hin].
      * left; left. congruence.
      * right. by exists row'.
Qed.

(** X2.  The keys of the mapping that the experimental reader returns are
    the ligand names of the data rows: every name is a key and every key is
    the name of a row. *)
Theorem get_exp_data_keys (headers : list string) (rows : list (list string))
    (d : odict exp_record) (n : nat) (name : string) :
  get_exp_data (headers :: rows) = Ok d →
  index "Ligand name" headers = Ok n →
  name ∈ od_keys d ↔ ∃ row, row ∈ rows ∧ row !! n = Some name.
Proof.
  intros Hrun Hn.
  assert (is_ok (get_exp_data [headers]) = true) as Hheaders.
  { revert Hrun. unfold get_exp_data.
    destruct (index "Ligand name" headers); simpl; [|done].
    destruct (index "Exp. dG (kcal/mol)" headers); simpl; [|done].
    destruct (index "Pred. dG (kcal/mol)" headers); simpl; [|done].
    by destruct (index "Pred. dG std. error (kcal/mol)" headers). }
  destruct (get_exp_data_loop _ Hheaders) as (n' & e & ee & f & fe & Hn' & Hloop).
  assert (n' = n) as -> by congruence. rewrite Hloop in Hrun.
  rewrite (exp_rows_keys _ _ _ _ _ _ _ _ _ Hrun). unfold od_keys. simpl.
  split; [intros [Hin|?]; [by apply elem_of_nil in Hin|done]|by right].
Qed.

(** What a loop of [calc_row] that returns has logged and filed. *)
Lemma calc_rows_log_and_keys (rows : list (list string))
    (d0 d : odict calc_record) (w : list event) :
  mfold calc_row d0 rows = (w, Ok d) →
  w = rows ≫= row_warnings
  ∧ (Forall (λ item, item.1 = calc_tag (ligand_i item.2) (ligand_j item.2)) d0 →
     Forall (λ item, item.1 = calc_tag (ligand_i item.2) (ligand_j item.2)) d)
  ∧ ∀ tag, tag ∈ od_keys d ↔
           tag ∈ od_keys d0 ∨ ∃ row, row ∈ rows ∧ row_tag row = Some tag.
Proof.
  revert d0 w. induction rows as [|row rows IH]; intros d0 w; simpl.
  - intros [= <- <-]. split; [done|]. split; [done|]. intros tag.
    split; [by left|]. intros [?|(row & Hin & _)]; [done|].
    by apply elem_of_nil in Hin.
  - intros Hrun.
    apply bind_inv_ok in Hrun as (w1 & d1 & w2 & Hstep & Hrest & ->).
    destruct (IH _ _ Hrest) as (-> & Hinv & Hkeys).
    destruct (calc_row_inv _ _ _ _ Hstep)
      as (i & j & gs & es & rest & g & e & -> & Hg & He).
    rewrite (calc_row_fields _ _ _ _ _ _ _ _ Hg He) in Hstep.
    injection Hstep as <- <-. split; [|split].
    + simpl. by rewrite He.
    + intros Hd0. apply Hinv. by apply od_set_Forall.
    + intros tag. rewrite Hkeys, od_keys_set. split.
      * intros [[->|?]|(row' & Hin & Hrow')].
        -- right. eexists. split; [apply list_elem_of_here|done].
        -- by left.
        -- right. exists row'. split; [by apply list_elem_of_further|done].
      * intros [?|(row' & Hin & Hrow')]; [by left; right|].
        apply elem_of_cons in Hin as [->|Hin].
        -- left; left. simpl in Hrow'. congruence.
        -- right. by exists row'.
Qed.

(** X3.  The warnings of the calculated reader are, in the order of the
    rows, one for each data row whose standard error is below 0.01, and
    nothing else. *)
Theorem get_calc_data_warnings (headers : list string)
    (rows : list (list string)) (w : list event) (d : odict calc_record) :
  get_calc_data (headers :: rows) = (w, Ok d) →
  w = rows ≫= row_warnings.
Proof. intros Hrun. by destruct (calc_rows_log_and_keys _ _ _ _ Hrun). Qed.

(** X4.  In the mapping that the calculated reader returns, the keys are
    the tags of the data rows, and every key is the tag "i->j" of the two
    ligands in its record. *)
Theorem get_calc_data_keys (headers : list string)
    (rows : list (list string)) (w : list event) (d : odict calc_record) :
  get_calc_data (headers :: rows) = (w, Ok d) →
  (∀ tag, tag ∈ od_keys d ↔ ∃ row, row ∈ rows ∧ row_tag row = Some tag)
  ∧ Forall (λ item, item.1 = calc_tag (ligand_i item.2) (ligand_j item.2)) d.
Proof.
  intros Hrun. destruct (calc_rows_log_and_keys _ _ _ _ Hrun) as (_ & Hinv & Hkeys).
  split; [|by apply Hinv].
  intros tag. rewrite Hkeys. unfold od_keys. simpl.
  split; [intros [Hin|?]; [by apply elem_of_nil in Hin|done]|by right].
Qed.

(** What an iteration of [get_exp_data] that returns has read. *)
Lemma exp_row_fields (n e : nat) (ee : option nat) (f fe : nat)
    (d0 d1 : odict exp_record) (row : list string) (name : string)
    (r : exp_record) :
  exp_row n e ee f fe d0 row = Ok d1 →
  od_get name d1 = Some r →
  row !! n = Some name →
  row !! e ≫= float_of_str = Some (exp_dG r)
  ∧ row !! f ≫= float_of_str = Some (fep_dG r)
  ∧ row !! fe ≫= float_of_str = Some (fep_dG_err r)
  ∧ match ee with
    | Some i => row !! i ≫= float_of_str = Some (exp_dG_err r)
    | None => exp_dG_err r = 0%float
    end.
Proof.
  assert (∀ i x, float_field row i = Ok x → row !! i ≫= float_of_str = Some x)
    as Hfield.
  { intros i x. unfold float_field, getitem, py_float.
    destruct (row !! i) as [s|]; simpl; [|done].
    destruct (float_of_str s); by intros [= <-]. }
  unfold exp_row, getitem. intros Hstep Hget Hname. rewrite Hname in Hstep.
  simpl in Hstep.
  destruct (float_field row e) as [x1|] eqn:H1; simpl in Hstep; [|done].
  destruct (match ee with Some i => float_field row i | None => Ok 0%float end)
    as [x2|] eqn:H2; simpl in Hstep; [|done].
  destruct (float_field row f) as [x3|] eqn:H3; simpl in Hstep; [|done].
  destruct (float_field row fe) as [x4|] eqn:H4; simpl in Hstep; [|done].
  injection Hstep as <-. rewrite od_get_set_eq in Hget. injection Hget as <-.
  simpl. repeat split; try (by apply Hfield).
  destruct ee as [i|]; [by apply Hfield|congruence].
Qed.

(** X16.  The record that the experimental reader returns for a ligand
    holds the numbers of the last row with that name, each read from the
    field under its column title wherever that column stands in the header
    row; the experimental error is read from its column when the header row
    has one and is 0 otherwise. *)
Theorem get_exp_data_record (headers : list string)
    (before after : list (list string)) (row : list string)
    (d : odict exp_record) (n e f fe : nat) (name : string) :
  get_exp_data (headers :: before ++ row :: after) = Ok d →
  index "Ligand name" headers = Ok n →
  index "Exp. dG (kcal/mol)" headers = Ok e →
  index "Pred. dG (kcal/mol)" headers = Ok f →
  index "Pred. dG std. error (kcal/mol)" headers = Ok fe →
  row !! n = Some name →
  Forall (λ later, later !! n ≠ Some name) after →
  ∃ r, od_get name d = Some r
       ∧ row !! e ≫= float_of_str = Some (exp_dG r)
       ∧ row !! f ≫= float_of_str = Some (fep_dG r)
       ∧ row !! fe ≫= float_of_str = Some (fep_dG_err r)
       ∧ match index "Exp. dG error (kcal/mol)" headers with
         | Ok i => row !! i ≫= float_of_str = Some (exp_dG_err r)
         | Err _ => exp_dG_err r = 0%float
         end.
Proof.
  intros Hrun Hn He Hf Hfe Hname Hafter. unfold get_exp_data in Hrun.
  rewrite Hn, He, Hf, Hfe in Hrun. simpl in Hrun.
  destruct (exp_rows_last _ _ _ _ _ _ _ _ _ _ _ Hrun Hname Hafter)
    as (r & Hget & Hrow).
  exists r. split; [done|].
  assert (od_get name [(name, r)] = Some r) as Hone
    by (simpl; by rewrite decide_True).
  pose proof (exp_row_fields _ _ _ _ _ _ _ _ _ _ Hrow Hone Hname) as Hfields.
  by destruct (index "Exp. dG error (kcal/mol)" headers).
Qed.

(** X17.  The record that the calculated reader returns for a pair holds
    the two names and the numbers of the last row with that tag: the ddG as
    parsed and the standard error as parsed when it is not below 0.01 (a NaN
    included), with 0.01 added when it is. *)
Theorem get_calc_data_record (headers : list string)
    (before after : list (list string)) (row : list string)
    (w : list event) (d : odict calc_record) (tag : string) :
  get_calc_data (headers :: before ++ row :: after) = (w, Ok d) →
  row_tag row = Some tag →
  Forall (λ later, row_tag later ≠ Some tag) after →
  ∃ r g e,
    od_get tag d = Some r
    ∧ row !! 0 = Some (ligand_i r) ∧ row !! 1 = Some (ligand_j r)
    ∧ row !! 2 ≫= float_of_str = Some g ∧ ddG r = g
    ∧ row !! 3 ≫= float_of_str = Some e
    ∧ ddG_err r = (if PrimFloat.ltb e 0.01 then PrimFloat.add e 0.01 else e).
Proof.
  intros Hrun Htag Hafter.
  pose proof Hrun as Hrun'. simpl in Hrun'. rewrite mfold_app in Hrun'.
  apply bind_inv_ok in Hrun' as (w1 & d1 & w2 & _ & Hrun' & _).
  simpl in Hrun'.
  apply bind_inv_ok in Hrun' as (w3 & d3 & w4 & Hstep & _ & _).
  destruct (calc_row_inv _ _ _ _ Hstep)
    as (i & j & gs & es & rest & g & e & -> & Hg & He).
  simpl in Htag. injection Htag as <-.
  destruct (get_calc_data_row _ _ _ _ _ _ _ _ _ _ _ _ Hrun Hg He Hafter)
    as [Hget _].
  eexists _, g, e. split; [exact Hget|]. simpl. by rewrite Hg, He.
Qed.

End more_reader_properties.

(** ** Further properties of the graph assembler, the reports and [run] *)

Section more_plot_facts.
Import plot_results spec vocabulary.

Lemma rmap_length {A B} (f : A → result B) (l : list A) (bs : list B) :
  rmap f l = Ok bs → length bs = length l.
Proof.
  revert bs. induction l as [|a l IH]; intros bs; simpl.
  - by intros [= <-].
  - destruct (f a); simpl; [|done]. destruct (rmap f l); simpl; [|done].
    intros [= <-]. simpl. by rewrite (IH _ eq_refl).
Qed.

(** A column of a graph with a node that lacks the key. *)
Lemma node_column_missing (g : DiGraph) (key : string) (name : string)
    (attrs : gmap string float) :
  (name, attrs) ∈ nodes g → attrs !! key = None →
  node_column g key = Err (KeyError key).
Proof.
  unfold node_column. generalize (nodes g). intros l Hin Hnone.
  induction l as [|[name' attrs'] l IH]; [by apply elem_of_nil in Hin|].
  simpl. unfold getkey at 1. simpl.
  destruct (attrs' !! key) as [x|] eqn:Hx; simpl; [|done].
  apply elem_of_cons in Hin as [[= -> ->]|Hin]; [congruence|].
  by rewrite (IH Hin).
Qed.

Lemma fold_od_set_fresh {V W} (f : string → V → W) (d : odict V)
    (acc : odict W) :
  NoDup (od_keys acc ++ od_keys d) →
  fold_left (λ a '(k, r), od_set k (f k r) a) d acc
    = acc ++ ((λ item, (item.1, f item.1 item.2)) <$> d).
Proof.
  revert acc. unfold od_keys.
  induction d as [|[k r] d IH]; intros acc Hnd; simpl.
  - by rewrite (right_id_L [] (++)).
  - apply NoDup_app in Hnd as (Hacc & Hdisj & Hd).
    apply NoDup_cons in Hd as [Hk Hd].
    rewrite od_set_fresh by (intros Hin; apply (Hdisj _ Hin), list_elem_of_here).
    rewrite IH, <-(assoc_L (++)); [done|].
    unfold od_keys. rewrite fmap_app. simpl. apply NoDup_app. split; [|split].
    + apply NoDup_app. split; [done|]. split; [|apply NoDup_singleton].
      intros x Hx [= ->]%list_elem_of_singleton.
      apply (Hdisj _ Hx), list_elem_of_here.
    + intros x [Hx|[= ->]%list_elem_of_singleton]%elem_of_app Hin; [|done].
      by apply (Hdisj _ Hx), list_elem_of_further.
    + done.
Qed.

End more_plot_facts.

Section more_plot_properties.
Import plot_results spec vocabulary.
Context `{!Python, !Numpy, !Cinnabar}.

(** X5.  For an experimental mapping with distinct keys, [get_femap] feeds
    the estimator one absolute measurement per experimental entry (from the
    reference state to the ligand, not computational), in the order of the
    mapping, then one relative measurement per calculated entry
    (computational), and then asks for the absolute values; it raises what
    the first failing call raises. *)
Theorem get_femap_measurements (exp_data : odict exp_record)
    (calc_data : odict calc_record) :
  NoDup (od_keys exp_data) →
  get_femap exp_data calc_data
    = (femap <~ rfold add_measurement FEMap_new
                  (((λ item, exp_measurement item.1 item.2) <$> exp_data)
                   ++ (calc_measurement <$> od_values calc_data)) ;;
       generate_absolute_values femap).
Proof.
  intros Hnd. unfold get_femap.
  rewrite (fold_od_set_fresh exp_measurement exp_data []) by done.
  rewrite rfold_app. unfold od_values at 1. simpl.
  rewrite <-list_fmap_compose.
  by destruct (rfold add_measurement FEMap_new _).
Qed.

(** X6.  [plot_schrodinger_comparison] raises [ZeroDivisionError] on an empty
    mapping, before any plot.  On another mapping it makes one call of
    [_master_plot], whose outcome is its own: the experimental values against
    the third-party ones, one point per ligand in the order of the mapping,
    uncentred, with the mean experimental value passed as [shift]. *)
Theorem plot_schrodinger_comparison_outcome (exp_data : odict exp_record)
    (filename : string) (statistics : list string) :
  (exp_data = [] →
   plot_schrodinger_comparison exp_data filename statistics
     = ([], Err ZeroDivisionError))
  ∧ (exp_data ≠ [] →
     ∃ call,
       plot_schrodinger_comparison exp_data filename statistics
         = ([MasterPlot call], _master_plot call)
       ∧ mp_x call = exp_dG <$> od_values exp_data
       ∧ mp_y call = fep_dG <$> od_values exp_data
       ∧ mp_xerr call = exp_dG_err <$> od_values exp_data
       ∧ mp_yerr call = fep_dG_err <$> od_values exp_data
       ∧ mp_shift call
           = Some (PrimFloat.div (py_sum (exp_dG <$> od_values exp_data))
                     (float_of_nat (length exp_data)))
       ∧ mp_statistics call = statistics
       ∧ mp_filename call = filename).
Proof.
  split.
  - by intros ->.
  - intros Hne. unfold plot_schrodinger_comparison, exp_shift.
    destruct exp_data as [|item d]; [done|].
    unfold py_truediv, lift, call_master_plot, emit. cbn [length bind app].
    match goal with |- context [_master_plot ?c] => exists c end.
    split; [|done]. by destruct (_master_plot _).
Qed.

(** The logs of the reports hold no notice. *)
Lemma plot_femap_no_notice (femap : FEMap) (exp_data : odict exp_record)
    (f1 f2 : string) (statistics : list string) :
  Forall (λ ev, is_notice ev = false)
    (plot_femap femap exp_data f1 f2 statistics).1.
Proof.
  unfold plot_femap, call_plot_DDGs, call_master_plot, lift, emit.
  destruct (to_legacy_graph femap) as [g|]; cbn [bind app]; [|constructor].
  destruct (plot_DDGs g f1) as [[]|]; cbn [bind app];
    [|by repeat constructor].
  destruct (exp_shift exp_data) as [shift|]; cbn [bind app];
    [|by repeat constructor].
  destruct (node_column g "exp_DG") as [x|]; cbn [bind app];
    [|by repeat constructor].
  destruct (node_column g "calc_DG") as [y|]; cbn [bind app];
    [|by repeat constructor].
  destruct (node_column g "exp_dDG") as [xerr|]; cbn [bind app];
    [|by repeat constructor].
  destruct (node_column g "calc_dDG") as [yerr|]; cbn [bind app];
    [|by repeat constructor].
  destruct (_master_plot _); by repeat constructor.
Qed.

Lemma plot_schrodinger_no_notice (exp_data : odict exp_record)
    (filename : string) (statistics : list string) :
  Forall (λ ev, is_notice ev = false)
    (plot_schrodinger_comparison exp_data filename statistics).1.
Proof.
  unfold plot_schrodinger_comparison, call_master_plot, lift, emit.
  destruct (exp_shift exp_data) as [shift|]; cbn [bind app]; [|constructor].
  destruct (_master_plot _); by repeat constructor.
Qed.

Lemma plot_openfe_no_notice (femap : FEMap) (exp_data : odict exp_record)
    (filename : string) (statistics : list string) :
  Forall (λ ev, is_notice ev = false)
    (plot_openfe_schrodinger_comparison femap exp_data filename statistics).1.
Proof.
  unfold plot_openfe_schrodinger_comparison, call_master_plot, lift, emit.
  destruct (to_legacy_graph femap) as [g|]; cbn [bind app]; [|constructor].
  destruct (collect_pairs (nodes g) exp_data) as [p|]; cbn [bind app];
    [|constructor].
  destruct (paired_shift p) as [shift|]; cbn [bind app]; [|constructor].
  destruct (_master_plot _); by repeat constructor.
Qed.

Lemma bind_log {E A B} (P : E → Prop) (m : M E A) (k : A → M E B) :
  Forall P m.1 → (∀ a, Forall P (k a).1) → Forall P (bind m k).1.
Proof.
  destruct m as [w [a|e]]; simpl; [|done]. intros Hw Hk.
  specialize (Hk a). destruct (k a) as [w' r]. simpl in *.
  by apply Forall_app.
Qed.

Lemma plot_batch_no_notice (femap : FEMap) (exp_data : odict exp_record)
    (f1 f2 f3 f4 : string) (statistics : list string) :
  Forall (λ ev, is_notice ev = false)
    (plot_batch femap exp_data f1 f2 f3 f4 statistics).1.
Proof.
  unfold plot_batch. apply bind_log; [apply plot_femap_no_notice|].
  intros _. apply bind_log; [apply plot_schrodinger_no_notice|].
  intros _. apply plot_openfe_no_notice.
Qed.

Lemma get_calc_data_no_notice (rd : list (list string)) :
  Forall (λ ev, is_notice ev = false) (get_calc_data rd).1.
Proof.
  destruct rd as [|headers rows]; [constructor|]. simpl.
  generalize (@nil (string * calc_record)).
  induction rows as [|row rows IH]; intros d; simpl; [constructor|].
  apply bind_log; [|intros d'; apply IH].
  unfold calc_row, lift, emit, ret.
  destruct (getitem row 0) as [i|]; cbn [bind app]; [|constructor].
  destruct (getitem row 1) as [j|]; cbn [bind app]; [|constructor].
  destruct (float_field row 2) as [g|]; cbn [bind app]; [|constructor].
  destruct (float_field row 3) as [e|]; cbn [bind app]; [|constructor].
  destruct (PrimFloat.ltb e 0.01); by repeat constructor.
Qed.

(** X7.  [run] prints the small-sample notice exactly when both inputs are
    read, the map is assembled and a report of the first batch raises
    [ValueError]; a [ValueError] raised while the inputs are read (a missing
    column, a malformed number) prints none.  The notice is printed at most
    once. *)
Theorem run_notice (calculated experiment : list (list string))
    (f1 f2 f3 f4 : string) :
  let log := (run calculated experiment f1 f2 f3 f4).1 in
  (∀ msg,
     Echo msg ∈ log ↔
     msg = small_sample_notice
     ∧ ∃ exp_data w0 calc_data femap w1,
         get_exp_data experiment = Ok exp_data
         ∧ get_calc_data calculated = (w0, Ok calc_data)
         ∧ get_femap exp_data calc_data = Ok femap
         ∧ batch_raises femap exp_data f1 f2 f3 f4 default_statistics w1
             ValueError)
  ∧ length (filter (λ ev, is_notice ev = true) log) ≤ 1.
Proof.
  assert (∀ w msg, Forall (λ ev, is_notice ev = false) w → Echo msg ∉ w)
    as Hnone.
  { intros w msg Hw Hin. rewrite Forall_forall in Hw. by apply Hw in Hin. }
  assert (∀ w, Forall (λ ev, is_notice ev = false) w →
               filter (λ ev, is_notice ev = true) w = []) as Hfilter.
  { intros w Hw. induction Hw as [|ev w Hev _ IH]; [done|].
    rewrite filter_cons, decide_False by congruence. exact IH. }
  unfold run, lift.
  destruct (get_exp_data experiment) as [exp_data|e0] eqn:Hexp; cbn [bind app].
  2:{ split; [|simpl; lia]. intros msg. split; [by intros ?%elem_of_nil|].
      by intros (_ & ? & ? & ? & ? & ? & [=] & _). }
  pose proof (get_calc_data_no_notice calculated) as Hw0.
  destruct (get_calc_data calculated) as [w0 [calc_data|e1]] eqn:Hcalc;
    cbn [bind app fst] in *.
  2:{ split; [|rewrite Hfilter by done; simpl; lia].
      intros msg. split; [by intros ?%(Hnone _ _ Hw0)|].
      by intros (_ & ? & ? & ? & ? & ? & _ & [=] & _). }
  destruct (get_femap exp_data calc_data) as [femap|e2] eqn:Hfemap;
    cbn [bind app].
  2:{ rewrite (right_id_L [] (++)).
      split; [|rewrite Hfilter by done; simpl; lia].
      intros msg. split; [by intros ?%(Hnone _ _ Hw0)|].
      intros (_ & ? & ? & ? & ? & ? & [= <-] & [= <- <-] & Hf & _).
      congruence. }
  unfold run_plots, try_except_ValueError, emit.
  pose proof (plot_batch_no_notice femap exp_data f1 f2 f3 f4 default_statistics)
    as Hw1.
  pose proof (plot_batch_no_notice femap exp_data f1 f2 f3 f4 ["RMSE"; "MUE"])
    as Hw2.
  destruct (plot_batch femap exp_data f1 f2 f3 f4 default_statistics)
    as [w1 r1] eqn:Hbatch.
  destruct (plot_batch femap exp_data f1 f2 f3 f4 ["RMSE"; "MUE"])
    as [w2 r2] eqn:Hretry.
  simpl in Hw1, Hw2.
  assert (r1 ≠ Err ValueError →
          ∀ msg, ¬ (msg = small_sample_notice
            ∧ ∃ exp_data' w0' calc_data' femap' w1',
                Ok exp_data = Ok exp_data'
                ∧ (w0, Ok calc_data) = (w0', Ok calc_data')
                ∧ get_femap exp_data' calc_data' = Ok femap'
                ∧ batch_raises femap' exp_data' f1 f2 f3 f4 default_statistics
                    w1' ValueError)) as Hnot.
  { intros Hne msg (_ & ? & ? & ? & femap' & ? & [= <-] & [= <- <-] & Hf & Hb).
    assert (femap' = femap) as -> by congruence.
    apply batch_raises_plot_batch in Hb. congruence. }
  assert (r1 ≠ Err ValueError →
          (∀ msg, Echo msg ∈ w0 ++ w1 ↔
             msg = small_sample_notice
             ∧ ∃ exp_data' w0' calc_data' femap' w1',
                 Ok exp_data = Ok exp_data'
                 ∧ (w0, Ok calc_data) = (w0', Ok calc_data')
                 ∧ get_femap exp_data' calc_data' = Ok femap'
                 ∧ batch_raises femap' exp_data' f1 f2 f3 f4
                     default_statistics w1' ValueError)
          ∧ length (filter (λ ev, is_notice ev = true) (w0 ++ w1)) ≤ 1)
    as Hquiet.
  { intros Hne. split.
    - intros msg. split.
      + intros [Hin|Hin]%elem_of_app;
          [by apply (Hnone _ _ Hw0) in Hin|by apply (Hnone _ _ Hw1) in Hin].
      + intros Hyes. by apply (Hnot Hne) in Hyes.
    - rewrite filter_app, !Hfilter by done. simpl. lia. }
  destruct r1 as [[]|e3]; [by apply Hquiet|].
  destruct e3; try (by apply Hquiet).
  cbn [bind app fst]. split.
  - intros msg. split.
    + intros [Hin|Hin]%elem_of_app; [by apply (Hnone _ _ Hw0) in Hin|].
      apply elem_of_app in Hin as [Hin|Hin];
        [by apply (Hnone _ _ Hw1) in Hin|].
      apply elem_of_cons in Hin as [[= ->]|Hin];
        [|by apply (Hnone _ _ Hw2) in Hin].
      split; [done|]. exists exp_data, w0, calc_data, femap, w1.
      repeat split; try done. by apply batch_raises_plot_batch.
    + intros [-> _]. apply elem_of_app; right. apply elem_of_app; right.
      apply list_elem_of_here.
  - rewrite !filter_app, filter_cons, decide_True by done.
    rewrite !Hfilter by done. simpl. lia.
Qed.

(** X8.  When a node of the graph has no experimental value (a ligand of the
    calculated file that the experimental file lacks), [plot_femap] raises
    [KeyError] for "exp_DG" after the ddG plot and without the dG plot. *)
Theorem plot_femap_node_without_experiment (femap : FEMap) (g : DiGraph)
    (exp_data : odict exp_record) (f1 f2 : string) (statistics : list string)
    (name : string) (attrs : gmap string float) :
  to_legacy_graph femap = Ok g →
  plot_DDGs g f1 = Ok tt →
  exp_data ≠ [] →
  (name, attrs) ∈ nodes g →
  attrs !! "exp_DG" = None →
  plot_femap femap exp_data f1 f2 statistics
    = ([PlotDDGs g f1], Err (KeyError "exp_DG")).
Proof.
  intros Hg Hddg Hne Hnode Hmissing.
  unfold plot_femap, call_plot_DDGs, lift, emit.
  rewrite Hg. cbn [bind app]. rewrite Hddg. cbn [bind app].
  unfold exp_shift. destruct exp_data as [|item d]; [done|].
  cbn [length py_truediv bind app].
  by rewrite (node_column_missing _ _ _ _ Hnode Hmissing).
Qed.

(** X9.  In every call of [_master_plot] that [plot_femap] and
    [plot_openfe_schrodinger_comparison] make, the two arrays and the two
    error arrays have one length: the number of nodes of the graph in the
    first, the number of experimental ligands that are nodes in the second. *)
Theorem reports_plot_paired_arrays (femap : FEMap)
    (exp_data : odict exp_record) (w : list event) (res : result unit)
    (call : master_plot_call) :
  MasterPlot call ∈ w →
  (∀ f1 f2 statistics,
     plot_femap femap exp_data f1 f2 statistics = (w, res) →
     ∃ g, to_legacy_graph femap = Ok g
          ∧ length (mp_x call) = length (nodes g)
          ∧ length (mp_y call) = length (nodes g)
          ∧ length (mp_xerr call) = length (nodes g)
          ∧ length (mp_yerr call) = length (nodes g))
  ∧ (∀ filename statistics,
       plot_openfe_schrodinger_comparison femap exp_data filename statistics
         = (w, res) →
       ∃ g, to_legacy_graph femap = Ok g
            ∧ let n := length (filter (λ entry, entry ∈ (nodes g).*1)
                                 (od_keys exp_data)) in
              length (mp_x call) = n ∧ length (mp_y call) = n
              ∧ length (mp_xerr call) = n ∧ length (mp_yerr call) = n).
Proof.
  intros Hin. split.
  - intros f1 f2 statistics Hrun.
    destruct (plot_femap_call _ _ _ _ _ _ _ _ Hrun Hin)
      as (g & shift & x & y & xerr & yerr & Hg & _ & Hx & Hy & Hxe & Hye & ->).
    exists g. simpl. unfold centre. rewrite !length_fmap.
    unfold node_column in *.
    by rewrite (rmap_length _ _ _ Hx), (rmap_length _ _ _ Hy),
      (rmap_length _ _ _ Hxe), (rmap_length _ _ _ Hye).
  - intros filename statistics Hrun.
    destruct (plot_openfe_call _ _ _ _ _ _ _ Hrun Hin)
      as (g & p & shift & Hg & Hp & _ & ->).
    exists g. split; [done|]. simpl. unfold centre. rewrite length_fmap.
    destruct (collect_pairs_matched _ _ _ _ Hp) as (Ha & Hb & Hc & Hd & _).
    simpl in *. rewrite <-matched_names, length_fmap.
    apply (f_equal length) in Hc, Hd. rewrite !length_fmap in Hc, Hd.
    by rewrite Ha, Hb, Hc, Hd, !length_fmap.
Qed.

End more_plot_properties.

Section covering_graph.
Import plot_results spec vocabulary.

(** X10.  When every experimental ligand is a node of the graph that has the
    two calculated values and, as its experimental value, that of the
    experimental mapping, the third-party report pairs all the ligands and
    its shift is the mean over all of them: the shift of the
    computed-vs-experiment report. *)
Theorem third_party_shift_on_covering_graph
    (openfe_nodes : list (string * gmap string float))
    (exp_data : odict exp_record) :
  Forall (λ item : string * exp_record,
            ∃ attrs, node_of openfe_nodes item.1 = Some attrs
                     ∧ is_Some (attrs !! "calc_DG")
                     ∧ is_Some (attrs !! "calc_dDG")
                     ∧ attrs !! "exp_DG" = Some (exp_dG item.2)) exp_data →
  ∃ p, collect_pairs openfe_nodes exp_data = Ok p
       ∧ fep p = fep_dG <$> od_values exp_data
       ∧ exp p = exp_dG <$> od_values exp_data
       ∧ paired_shift p = exp_shift exp_data.
Proof.
  intros Hall.
  assert (∀ acc, ∃ p,
            rfold (pair_entry openfe_nodes) acc exp_data = Ok p
            ∧ fep p = fep acc ++ (fep_dG <$> od_values exp_data)
            ∧ exp p = exp acc ++ (exp_dG <$> od_values exp_data)) as Hloop.
  { induction Hall as [|[entry r] d (attrs & Hnode & [c Hc] & [ce Hce] & He) _ IH];
      intros acc.
    - exists acc. unfold od_values. simpl. by rewrite !(right_id_L [] (++)).
    - cbn [rfold]. unfold pair_entry at 1. unfold node_of in Hnode.
      simpl in Hnode, He.
      destruct (filter _ openfe_nodes) as [|[name attrs'] l]; [done|].
      injection Hnode as ->. unfold getkey. cbn [snd].
      rewrite Hc, Hce, He. cbn [rbind].
      destruct (IH {| fep := fep acc ++ [fep_dG r];
                      fep_err := fep_err acc ++ [fep_dG_err r];
                      dg_openfe := dg_openfe acc ++ [c];
                      openfe_err := openfe_err acc ++ [ce];
                      exp := exp acc ++ [exp_dG r] |}) as (p & Hp & Hfep & Hexp).
      exists p. split; [done|]. simpl in Hfep, Hexp.
      rewrite Hfep, Hexp, <-!(assoc_L (++)). done. }
  destruct (Hloop no_pairs) as (p & Hp & Hfep & Hexp). exists p.
  split; [done|]. split; [done|]. split; [done|].
  unfold paired_shift, exp_shift. simpl in Hexp. rewrite Hexp.
  unfold od_values. by rewrite !length_fmap.
Qed.

End covering_graph.

(** ** Further properties of the renaming utility *)

Section more_rename_properties.
Import rename_exp_data.
Context `{!Pandas}.

(** X11.  On an input with at least one row and without a "Ligand Name"
    column, [main] raises [KeyError] for that column (from the handler, which
    reads the column again) and writes no file. *)
Theorem main_without_ligand_column (exp_csv : DataFrame cell)
    (name_mapping : gmap string cell) (output : string) :
  "Ligand Name" ∉ columns exp_csv →
  rows exp_csv ≠ [] →
  main exp_csv name_mapping output = ([], Err (KeyError "Ligand Name")).
Proof.
  intros Hmissing Hrows. unfold main, rename_column, lift.
  destruct (rows exp_csv) as [|row rs]; [done|].
  cbn [rmap]. unfold _rename, row_get.
  rewrite (index_missing _ _ Hmissing). done.
Qed.

(** The frame that [rename_column] returns when every name is mapped. *)
Lemma rename_column_mapped (exp_csv : DataFrame cell)
    (name_mapping : gmap string cell) (i : nat) :
  index "Ligand Name" (columns exp_csv) = Ok i →
  rows exp_csv ≠ [] →
  Forall (λ r, ∃ c, r !! i = Some c
                    ∧ is_Some (name_mapping !! str_of_cell c)) (rows exp_csv) →
  ∃ rows',
    rename_column exp_csv name_mapping
      = Ok {| columns := columns exp_csv; rows := rows' |}
    ∧ Forall2 (λ row row', ∃ c new,
                 row !! i = Some c
                 ∧ name_mapping !! str_of_cell c = Some new
                 ∧ row' = <[i := new]> row) (rows exp_csv) rows'.
Proof.
  intros Hi Hrows Hmapped.
  destruct (rmap_rename_mapped _ _ _ _ Hi Hmapped) as (news & Hrun & Hall).
  exists (zip_with (λ row v, <[i := v]> row) (rows exp_csv) news). split.
  - unfold rename_column. destruct (rows exp_csv) as [|r0 rs0] eqn:Hsplit;
      [done|].
    rewrite Hrun. cbn [rbind]. unfold set_column. by rewrite Hi, Hsplit.
  - clear Hrun Hrows Hmapped.
    induction Hall as [|row new rs news (c & Hc & Hnew) _ IH]; simpl;
      constructor; eauto.
Qed.

(** X12.  Renaming can be undone: after a renaming of an input with at least
    one row, all of whose names are mapped, a second renaming with a mapping
    that sends each new name back to the old one returns the input frame. *)
Theorem rename_column_round_trip (exp_csv : DataFrame cell)
    (name_mapping back : gmap string cell) (i : nat) :
  index "Ligand Name" (columns exp_csv) = Ok i →
  rows exp_csv ≠ [] →
  Forall (λ r, ∃ c new,
            r !! i = Some c
            ∧ name_mapping !! str_of_cell c = Some new
            ∧ back !! str_of_cell new = Some c) (rows exp_csv) →
  ∃ renamed,
    rename_column exp_csv name_mapping = Ok renamed
    ∧ rename_column renamed back = Ok exp_csv.
Proof.
  intros Hi Hrows Hback.
  destruct (rename_column_mapped exp_csv name_mapping i Hi Hrows)
    as (rows1 & Hrun1 & Hall1).
  { eapply Forall_impl; [exact Hback|]. intros r (c & new & ? & ? & _). eauto. }
  exists {| columns := columns exp_csv; rows := rows1 |}. split; [done|].
  assert (Forall2 (λ row row1, ∃ c new,
                     row !! i = Some c ∧ row1 = <[i := new]> row
                     ∧ back !! str_of_cell new = Some c) (rows exp_csv) rows1)
    as Hall.
  { clear Hrun1 Hrows. induction Hall1 as [|row row1 rs rs1 (c & new & Hc & Hnew & ->) _ IH].
    - constructor.
    - apply Forall_cons in Hback as [(c' & new' & Hc' & Hnew' & Hb) Hback].
      constructor; [|by apply IH].
      exists c, new. split; [done|]. split; [done|]. congruence. }
  destruct (rename_column_mapped {| columns := columns exp_csv; rows := rows1 |}
              back i Hi) as (rows2 & Hrun2 & Hall2).
  { simpl. intros ->. apply Forall2_nil_inv_r in Hall. by rewrite Hall in Hrows. }
  { simpl. clear Hrun1 Hall1 Hrows Hback.
    induction Hall as [|row row1 rs rs1 (c & new & Hc & -> & Hb) _ IH];
      constructor; [|done].
    exists new. split; [|by exists c].
    apply list_lookup_insert_eq. by apply lookup_lt_Some in Hc. }
  rewrite Hrun2. f_equal. destruct exp_csv as [cols rs]. simpl in *. f_equal.
  clear Hrun1 Hrun2 Hall1 Hrows Hback Hi.
  revert rows2 Hall2.
  induction Hall as [|row row1 rs0 rs1 (c & new & Hc & -> & Hb) _ IH];
    intros rows2 Hall2.
  - by apply Forall2_nil_inv_l in Hall2.
  - apply Forall2_cons_inv_l in Hall2
      as (row2 & rs2 & (c' & new' & Hc' & Hnew' & ->) & Hrest & ->).
    f_equal; [|by apply IH].
    rewrite list_lookup_insert_eq in Hc' by (by apply lookup_lt_Some in Hc).
    injection Hc' as <-. rewrite Hb in Hnew'. injection Hnew' as <-.
    rewrite list_insert_insert_eq. by apply list_insert_id.
Qed.

End more_rename_properties.

(** ** Properties of the topology driver *)

Section path_facts.
Import gen_amber_top amber_vocabulary.

Lemma append_cons (c : ascii) (a b : string) :
  String c a +:+ b = String c (a +:+ b).
Proof. reflexivity. Qed.

Lemma append_empty_l (b : string) : "" +:+ b = b.
Proof. reflexivity. Qed.

Ltac string_simpl := rewrite ?append_cons, ?append_empty_l; simpl.

Lemma append_assoc (a b c : string) : (a +:+ b) +:+ c = a +:+ (b +:+ c).
Proof. induction a as [|x a IH]; string_simpl; [done|]. by rewrite IH. Qed.

Lemma has_sep_append (a b : string) :
  has_sep (a +:+ b) = has_sep a || has_sep b.
Proof.
  induction a as [|x a IH]; string_simpl; [done|]. rewrite IH.
  by destruct (is_sep x).
Qed.

Lemma split_sep_cons (s : string) : ∃ h t, split_sep s = h :: t.
Proof.
  induction s as [|c s (h & t & IH)]; simpl; [by eexists _, _|].
  destruct (is_sep c); [by eexists _, _|]. rewrite IH. by eexists _, _.
Qed.

Lemma split_sep_no_sep (n : string) : has_sep n = false → split_sep n = [n].
Proof.
  induction n as [|c n IH]; simpl; [done|].
  intros [Hc Hn]%orb_false_iff. rewrite Hc, (IH Hn). done.
Qed.

Lemma split_sep_append (a b : string) :
  split_sep (a +:+ String "/" b) = split_sep a ++ split_sep b.
Proof.
  induction a as [|c a IH]; string_simpl; [done|].
  destruct (is_sep c); [by rewrite IH|]. rewrite IH.
  by destruct (split_sep_cons a) as (h & t & ->).
Qed.

Lemma split_sep_parts (s : string) :
  Forall (λ part, has_sep part = false) (split_sep s).
Proof.
  induction s as [|c s IH]; simpl; [by repeat constructor|].
  destruct (is_sep c) eqn:Hc; [by constructor|].
  destruct (split_sep s) as [|h t]; [by repeat constructor; simpl; rewrite Hc|].
  apply Forall_cons in IH as [Hh Ht]. constructor; [|done]. simpl.
  by rewrite Hc, Hh.
Qed.

Lemma ends_with_sep_inv (a : string) :
  ends_with_sep a = true → ∃ a', a = a' +:+ "/".
Proof.
  induction a as [|c a IH]; [done|]. destruct a as [|c' a].
  - simpl. unfold is_sep. intros ->%bool_decide_eq_true. by exists "".
  - intros Hends. destruct (IH Hends) as (a' & Ha'). exists (String c a').
    rewrite append_cons. by rewrite <-Ha'.
Qed.

(** The name of a path that ends in a component. *)
Lemma name_append (a n : string) :
  has_sep n = false → n ≠ "" → n ≠ "." → name (a +:+ String "/" n) = n.
Proof.
  intros Hsep Hne Hdot. unfold name.
  rewrite split_sep_append, (split_sep_no_sep n Hsep), filter_app.
  rewrite filter_cons, decide_True by done. rewrite filter_nil.
  by rewrite last_snoc.
Qed.

Lemma name_join (folder n : string) :
  has_sep n = false → n ≠ "" → n ≠ "." → name (join folder n) = n.
Proof.
  intros Hsep Hne Hdot. unfold join.
  assert (starts_with_sep n = false) as ->.
  { destruct n as [|c n]; [done|]. simpl in *. by destruct (is_sep c). }
  destruct (bool_decide (folder = "")) eqn:Hempty; simpl.
  - apply bool_decide_eq_true in Hempty as ->. string_simpl. unfold name.
    rewrite (split_sep_no_sep n Hsep), filter_cons, decide_True by done.
    done.
  - destruct (ends_with_sep folder) eqn:Hends.
    + apply ends_with_sep_inv in Hends as (a & ->).
      rewrite append_assoc. string_simpl. by apply name_append.
    + by apply name_append.
Qed.

Lemma rsplit_dot_suffix (x : string) :
  rsplit_dot (x +:+ ".pdb") = Some (x, "pdb").
Proof. induction x as [|c x IH]; string_simpl; [done|]. by rewrite IH. Qed.

Lemma rsplit_dot_inv (n before after : string) :
  rsplit_dot n = Some (before, after) → n = before +:+ String "." after.
Proof.
  revert before. induction n as [|c n IH]; intros before; simpl; [done|].
  destruct (rsplit_dot n) as [[b a]|].
  - intros [= <- <-]. rewrite append_cons. by rewrite (IH b eq_refl).
  - destruct (bool_decide (c = "."%char)) eqn:Hc; [|done].
    apply bool_decide_eq_true in Hc as ->. by intros [= <- <-].
Qed.

Lemma name_no_sep (p : string) : has_sep (name p) = false.
Proof.
  unfold name. pose proof (split_sep_parts p) as Hparts.
  destruct (last (filter _ (split_sep p))) as [n|] eqn:Hlast; [|done].
  apply last_Some_elem_of, list_elem_of_filter in Hlast as [_ Hin].
  rewrite Forall_forall in Hparts. by apply Hparts.
Qed.

Lemma stem_no_sep (p : string) : has_sep (stem p) = false.
Proof.
  unfold stem. pose proof (name_no_sep p) as Hname.
  destruct (rsplit_dot (name p)) as [[before after]|] eqn:Hsplit; [|done].
  destruct (bool_decide _); [|done].
  apply rsplit_dot_inv in Hsplit. rewrite Hsplit, has_sep_append in Hname.
  by apply orb_false_iff in Hname as [? _].
Qed.

(** The stem of a file put in a folder under a name that ends in ".pdb". *)
Lemma stem_join_pdb (folder x : string) :
  has_sep x = false → x ≠ "" → stem (join folder (x +:+ ".pdb")) = x.
Proof.
  intros Hsep Hne. unfold stem. rewrite name_join.
  - rewrite rsplit_dot_suffix. by rewrite bool_decide_true.
  - by rewrite has_sep_append, Hsep.
  - by destruct x.
  - destruct x as [|c [|c' x]]; done.
Qed.

End path_facts.

Section driver_properties.
Import gen_amber_top amber_vocabulary.
Context `{!System}.

(** [main] on an input that exists, with the file names written out. *)
Lemma main_calls (input_pdb force_field output_folder : string) :
  path_exists input_pdb = true →
  main input_pdb force_field output_folder =
    let prepared := if path_exists output_folder then []
                    else [Makedirs output_folder] in
    let first := expected_pdb4amber input_pdb output_folder in
    let second := expected_leap input_pdb force_field output_folder in
    match (if path_exists output_folder then Ok tt
           else makedirs output_folder) with
    | Err e => (prepared, Some (Propagated e))
    | Ok _ =>
        match pdb4amber_run first with
        | Err e => (prepared ++ [Pdb4amber first], Some (Propagated e))
        | Ok _ =>
            (prepared ++ [Pdb4amber first; Leap second],
             match leap_gen_top second with
             | Err e => Some (Propagated e)
             | Ok _ => None
             end)
        end
    end.
Proof.
  intros Hinput. unfold main, expected_pdb4amber, expected_leap.
  rewrite Hinput. cbn [negb].
  assert (stem (join output_folder (stem input_pdb +:+ "_pdb4amber.pdb"))
          = stem input_pdb +:+ "_pdb4amber") as ->.
  { change "_pdb4amber.pdb" with ("_pdb4amber" +:+ ".pdb").
    rewrite <-append_assoc. apply stem_join_pdb.
    - by rewrite has_sep_append, stem_no_sep.
    - by destruct (stem input_pdb). }
  rewrite !append_assoc.
  change ("_pdb4amber" +:+ "_leap.pdb") with "_pdb4amber_leap.pdb".
  change ("_pdb4amber" +:+ ".parmtop") with "_pdb4amber.parmtop".
  change ("_pdb4amber" +:+ ".crd") with "_pdb4amber.crd".
  destruct (path_exists output_folder); cbn [negb]; [done|].
  by destruct (makedirs output_folder).
Qed.

(** X13.  Every file that [main] asks the tools for lies in the output
    folder and is named after the stem of the input: [pdb4amber_run] reads
    the input and writes "<stem>_pdb4amber.pdb"; [leap_gen_top] reads that
    file and writes "<stem>_pdb4amber_leap.pdb", "<stem>_pdb4amber.parmtop"
    and "<stem>_pdb4amber.crd", with the one force field given. *)
Theorem main_file_names (input_pdb force_field output_folder : string) :
  let log := (main input_pdb force_field output_folder).1 in
  (∀ call, Pdb4amber call ∈ log →
     p4a_input_pdb_path call = input_pdb
     ∧ p4a_output_pdb_path call
         = join output_folder (stem input_pdb +:+ "_pdb4amber.pdb")
     ∧ p4a_remove_hydrogens call = false
     ∧ p4a_remove_waters call = false)
  ∧ (∀ call, Leap call ∈ log →
       leap_input_pdb_path call
         = join output_folder (stem input_pdb +:+ "_pdb4amber.pdb")
       ∧ leap_output_pdb_path call
           = join output_folder (stem input_pdb +:+ "_pdb4amber_leap.pdb")
       ∧ leap_output_top_path call
           = join output_folder (stem input_pdb +:+ "_pdb4amber.parmtop")
       ∧ leap_output_crd_path call
           = join output_folder (stem input_pdb +:+ "_pdb4amber.crd")
       ∧ leap_forcefield call = [force_field]).
Proof.
  destruct (path_exists input_pdb) eqn:Hinput.
  2:{ unfold main. rewrite Hinput. simpl. split; intros call Hin;
        by apply elem_of_nil in Hin. }
  rewrite (main_calls _ _ _ Hinput). cbn zeta.
  assert (∀ (prepared : list event) ev,
            prepared = [] ∨ prepared = [Makedirs output_folder] →
            ev ∈ prepared → ∃ path, ev = Makedirs path) as Hprep.
  { intros prepared ev [->| ->] Hin.
    - by apply elem_of_nil in Hin.
    - apply list_elem_of_singleton in Hin as ->. eauto. }
  set (prepared := if path_exists output_folder then []
                   else [Makedirs output_folder]).
  assert (prepared = [] ∨ prepared = [Makedirs output_folder]) as Hcases
    by (unfold prepared; destruct (path_exists output_folder); auto).
  destruct (if path_exists output_folder then Ok tt else makedirs output_folder)
    as [[]|e0].
  2:{ simpl. split; intros call Hin;
        by apply (Hprep _ _ Hcases) in Hin as [path [=]]. }
  destruct (pdb4amber_run _) as [c1|e1]; simpl; split; intros call Hin.
  all: apply elem_of_app in Hin as [Hin|Hin];
    [by apply (Hprep _ _ Hcases) in Hin as [path [=]]|].
  all: repeat (apply elem_of_cons in Hin as [Hin|Hin];
               [try discriminate Hin; injection Hin as ->; done|]).
  all: by apply elem_of_nil in Hin.
Qed.

(** X14.  [main] does nothing for an input that does not exist but raise its
    [Exception].  It makes the output folder exactly when the input exists and
    the folder does not, and it calls [leap_gen_top] exactly when, after that,
    [pdb4amber_run] returned, whatever exit code it returned. *)
Theorem main_steps (input_pdb force_field output_folder : string) :
  let out := main input_pdb force_field output_folder in
  (path_exists input_pdb = false →
     out = ([], Some (Exception "Input PDB file not found")))
  ∧ (∀ path, Makedirs path ∈ out.1 ↔
       path = output_folder
       ∧ path_exists input_pdb = true ∧ path_exists output_folder = false)
  ∧ ((∃ call, Leap call ∈ out.1) ↔
       path_exists input_pdb = true
       ∧ (path_exists output_folder = true ∨ makedirs output_folder = Ok tt)
       ∧ ∃ code,
           pdb4amber_run (expected_pdb4amber input_pdb output_folder)
             = Ok code).
Proof.
  destruct (path_exists input_pdb) eqn:Hinput.
  2:{ unfold main. rewrite Hinput. simpl. split; [done|]. split.
      - intros path. split; [by intros ?%elem_of_nil|by intros (_ & ? & _)].
      - split; [by intros [call ?%elem_of_nil]|by intros (? & _)]. }
  rewrite (main_calls _ _ _ Hinput). cbn zeta. split; [done|].
  destruct (path_exists output_folder) eqn:Hfolder.
  - destruct (pdb4amber_run _) as [c1|e1] eqn:Hfirst; simpl; split.
    + intros path. split; [|by intros (_ & _ & ?)].
      intros Hin. repeat (apply elem_of_cons in Hin as [[=]|Hin]).
      by apply elem_of_nil in Hin.
    + split; [eauto 6|]. intros _. eexists.
      apply list_elem_of_further, list_elem_of_here.
    + intros path. split; [|by intros (_ & _ & ?)].
      intros Hin. repeat (apply elem_of_cons in Hin as [[=]|Hin]).
      by apply elem_of_nil in Hin.
    + split; [|by intros (_ & _ & ? & ?)]. intros [call Hin].
      repeat (apply elem_of_cons in Hin as [[=]|Hin]).
      by apply elem_of_nil in Hin.
  - destruct (makedirs output_folder) as [[]|e0] eqn:Hmade.
    + destruct (pdb4amber_run _) as [c1|e1] eqn:Hfirst; simpl; split.
      * intros path. split; [|intros (-> & _); apply list_elem_of_here].
        intros Hin. apply elem_of_cons in Hin as [[= ->]|Hin]; [done|].
        repeat (apply elem_of_cons in Hin as [[=]|Hin]).
        by apply elem_of_nil in Hin.
      * split; [eauto 6|]. intros _. eexists.
        do 2 apply list_elem_of_further. apply list_elem_of_here.
      * intros path. split; [|intros (-> & _); apply list_elem_of_here].
        intros Hin. apply elem_of_cons in Hin as [[= ->]|Hin]; [done|].
        repeat (apply elem_of_cons in Hin as [[=]|Hin]).
        by apply elem_of_nil in Hin.
      * split; [|by intros (_ & _ & ? & ?)]. intros [call Hin].
        repeat (apply elem_of_cons in Hin as [[=]|Hin]).
        by apply elem_of_nil in Hin.
    + simpl. split.
      * intros path. split; [|intros (-> & _); apply list_elem_of_here].
        intros Hin. apply elem_of_cons in Hin as [[= ->]|Hin]; [done|].
        by apply elem_of_nil in Hin.
      * split; [|by intros (_ & [?|?] & _)]. intros [call Hin].
        repeat (apply elem_of_cons in Hin as [[=]|Hin]).
        by apply elem_of_nil in Hin.
Qed.

(** X15.  [main] returns exactly when the input exists, the output folder
    exists or is made, and both tools return; it does not look at their exit
    codes. *)
Theorem main_returns (input_pdb force_field output_folder : string) :
  (main input_pdb force_field output_folder).2 = None ↔
  path_exists input_pdb = true
  ∧ (path_exists output_folder = true ∨ makedirs output_folder = Ok tt)
  ∧ (∃ code, pdb4amber_run (expected_pdb4amber input_pdb output_folder)
               = Ok code)
  ∧ (∃ code, leap_gen_top (expected_leap input_pdb force_field output_folder)
               = Ok code).
Proof.
  destruct (path_exists input_pdb) eqn:Hinput.
  2:{ unfold main. rewrite Hinput. simpl. split; [done|by intros (? & _)]. }
  rewrite (main_calls _ _ _ Hinput). cbn zeta.
  destruct (path_exists output_folder) eqn:Hfolder.
  - destruct (pdb4amber_run _) as [c1|e1]; simpl.
    + destruct (leap_gen_top _) as [c2|e2]; simpl.
      * split; [eauto 8|done].
      * split; [done|by intros (_ & _ & _ & ? & ?)].
    + split; [done|by intros (_ & _ & (? & ?) & _)].
  - destruct (makedirs output_folder) as [[]|e0]; simpl.
    + destruct (pdb4amber_run _) as [c1|e1]; simpl.
      * destruct (leap_gen_top _) as [c2|e2]; simpl.
        -- split; [eauto 8|done].
        -- split; [done|by intros (_ & _ & _ & ? & ?)].
      * split; [done|by intros (_ & _ & (? & ?) & _)].
    + split; [done|by intros (_ & [?|?] & _)].
Qed.

End driver_properties.

(** ** The further properties on concrete inputs *)

Section more_examples.
Import plot_results rename_exp_data gen_amber_top spec vocabulary
  amber_vocabulary fixtures more_fixtures.
#[local] Existing Instances decimal_python short_numpy example_cinnabar
  string_pandas.

Lemma get_exp_data_default_error_example :
  ("Exp. dG error (kcal/mol)" ∉ exp_header)
  ∧ get_exp_data exp_two = Ok exp_data_two
  ∧ Forall (λ item : string * exp_record, exp_dG_err item.2 = 0%float)
      exp_data_two.
Proof.
  assert ("Exp. dG error (kcal/mol)" ∉ exp_header) as Hmissing.
  { intros Hin. repeat (apply elem_of_cons in Hin as [[=]|Hin]).
    by apply elem_of_nil in Hin. }
  assert (get_exp_data exp_two = Ok exp_data_two) as Hrun
    by (vm_compute; reflexivity).
  split; [exact Hmissing|]. split; [exact Hrun|].
  exact (get_exp_data_default_error exp_header _ _ Hmissing Hrun).
Defined.

Lemma get_exp_data_keys_example :
  get_exp_data exp_two = Ok exp_data_two
  ∧ index "Ligand name" exp_header = Ok 0
  ∧ ("B" ∈ od_keys exp_data_two ↔
     ∃ row, row ∈ [["A"; "-10.0"; "-9.5"; "0.1"]; ["B"; "-8.0"; "-8.5"; "0.1"]]
            ∧ row !! 0 = Some "B").
Proof.
  assert (get_exp_data exp_two = Ok exp_data_two) as Hrun
    by (vm_compute; reflexivity).
  assert (index "Ligand name" exp_header = Ok 0) as Hn by reflexivity.
  split; [exact Hrun|]. split; [exact Hn|].
  exact (get_exp_data_keys exp_header _ _ 0 "B" Hrun Hn).
Defined.

Lemma get_calc_data_warnings_example :
  get_calc_data calc_small_error
    = ([Warn (padding_warning "A->B")],
       Ok [("A->B", {| ligand_i := "A"; ligand_j := "B"; ddG := 1%float;
                       ddG_err := 0.013000000000000001%float |})])
  ∧ [Warn (padding_warning "A->B")]
    = [["A"; "B"; "1.0"; "0.003"]] ≫= row_warnings.
Proof.
  assert (get_calc_data calc_small_error
          = ([Warn (padding_warning "A->B")],
             Ok [("A->B", {| ligand_i := "A"; ligand_j := "B"; ddG := 1%float;
                             ddG_err := 0.013000000000000001%float |})]))
    as Hrun by (vm_compute; reflexivity).
  split; [exact Hrun|].
  exact (get_calc_data_warnings calc_header _ _ _ Hrun).
Defined.

Lemma get_calc_data_keys_example :
  get_calc_data calc_duplicate
    = ([], Ok [("A->B", {| ligand_i := "A"; ligand_j := "B";
                           ddG := 2.5%float; ddG_err := 0.2%float |})])
  ∧ Forall (λ item : string * calc_record,
              item.1 = calc_tag (ligand_i item.2) (ligand_j item.2))
      [("A->B", {| ligand_i := "A"; ligand_j := "B";
                   ddG := 2.5%float; ddG_err := 0.2%float |})].
Proof.
  assert (get_calc_data calc_duplicate
          = ([], Ok [("A->B", {| ligand_i := "A"; ligand_j := "B";
                                 ddG := 2.5%float; ddG_err := 0.2%float |})]))
    as Hrun by (vm_compute; reflexivity).
  split; [exact Hrun|].
  exact (proj2 (get_calc_data_keys calc_header _ _ _ Hrun)).
Defined.

Lemma get_femap_measurements_example :
  NoDup (od_keys exp_data_two)
  ∧ get_femap exp_data_two []
    = (femap <~ rfold add_measurement FEMap_new
                  (((λ item, exp_measurement item.1 item.2) <$> exp_data_two)
                   ++ (calc_measurement <$> od_values [])) ;;
       generate_absolute_values femap).
Proof.
  assert (NoDup (od_keys exp_data_two)) as Hnd.
  { repeat (apply NoDup_cons; split;
            [intros Hin; repeat (apply elem_of_cons in Hin as [[=]|Hin]);
             by apply elem_of_nil in Hin|]).
    apply NoDup_nil_2. }
  split; [exact Hnd|].
  exact (get_femap_measurements (H1 := example_cinnabar) exp_data_two [] Hnd).
Defined.

Lemma plot_femap_node_without_experiment_example :
  (("Z", <["calc_DG" := (-7.5)%float]> (<["calc_dDG" := 0.1%float]> ∅))
     ∈ nodes graph_with_unmeasured)
  ∧ plot_femap graph_with_unmeasured exp_data_two "openfe_experiment_ddg.png"
      "openfe_experiment_dg.png" default_statistics
    = ([PlotDDGs graph_with_unmeasured "openfe_experiment_ddg.png"],
       Err (KeyError "exp_DG")).
Proof.
  assert (("Z", <["calc_DG" := (-7.5)%float]> (<["calc_dDG" := 0.1%float]> ∅))
            ∈ nodes graph_with_unmeasured) as Hnode
    by apply list_elem_of_further, list_elem_of_here.
  split; [exact Hnode|].
  eapply (plot_femap_node_without_experiment (H1 := example_cinnabar)
            graph_with_unmeasured graph_with_unmeasured exp_data_two _ _ _ "Z").
  - reflexivity.
  - reflexivity.
  - discriminate.
  - exact Hnode.
  - vm_compute. reflexivity.
Defined.

Lemma reports_plot_paired_arrays_example :
  let out :=
    plot_openfe_schrodinger_comparison graph_A_B exp_data_three
      "openfe_schrodinger_dg.png" ["RMSE"; "MUE"] in
  let call :=
    {| mp_x := [(-9.5)%float; (-8.5)%float];
       mp_y := [(-9.5)%float; (-8.5)%float];
       mp_xerr := [0.1%float; 0.1%float]; mp_yerr := [0.1%float; 0.1%float];
       mp_statistics := ["RMSE"; "MUE"]; mp_title := "FEP+ vs OpenFE";
       mp_xlabel := "FEP+"; mp_ylabel := "OpenFE";
       mp_filename := "openfe_schrodinger_dg.png"; mp_shift := None |} in
  MasterPlot call ∈ out.1
  ∧ ∃ g, to_legacy_graph graph_A_B = Ok g
         ∧ let n := length (filter (λ entry, entry ∈ (nodes g).*1)
                              (od_keys exp_data_three)) in
           length (mp_x call) = n ∧ length (mp_y call) = n
           ∧ length (mp_xerr call) = n ∧ length (mp_yerr call) = n.
Proof.
  intros out call.
  assert (out = ([MasterPlot call], Ok tt)) as Hout by (vm_compute; reflexivity).
  assert (MasterPlot call ∈ out.1) as Hin
    by (rewrite Hout; apply list_elem_of_here).
  split; [exact Hin|].
  apply (proj2 (reports_plot_paired_arrays (H1 := example_cinnabar) graph_A_B
                  exp_data_three out.1 out.2 call Hin)
           "openfe_schrodinger_dg.png" ["RMSE"; "MUE"]).
  by destruct out.
Defined.

Lemma third_party_shift_on_covering_graph_example :
  ∃ p, collect_pairs (nodes graph_A_B) exp_data_two = Ok p
       ∧ fep p = fep_dG <$> od_values exp_data_two
       ∧ exp p = exp_dG <$> od_values exp_data_two
       ∧ paired_shift p = exp_shift exp_data_two.
Proof.
  apply third_party_shift_on_covering_graph.
  repeat constructor.
  - exists (node_attrs (-10)%float 0%float (-9.5)%float 0.1%float).
    split; [reflexivity|]. split; [by eexists|]. split; [by eexists|].
    reflexivity.
  - exists (node_attrs (-8)%float 0%float (-8.5)%float 0.1%float).
    split; [reflexivity|]. split; [by eexists|]. split; [by eexists|].
    reflexivity.
Defined.

Lemma main_without_ligand_column_example :
  ("Ligand Name" ∉ columns frame_no_column)
  ∧ rename_exp_data.main frame_no_column name_mapping_LigA
      "blinded_experimental_data.csv"
    = ([], Err (KeyError "Ligand Name")).
Proof.
  assert ("Ligand Name" ∉ columns frame_no_column) as Hmissing.
  { intros Hin. repeat (apply elem_of_cons in Hin as [[=]|Hin]).
    by apply elem_of_nil in Hin. }
  split; [exact Hmissing|].
  apply (main_without_ligand_column (H := string_pandas) frame_no_column);
    [exact Hmissing|discriminate].
Defined.

Lemma rename_column_round_trip_example :
  ∃ renamed,
    rename_column frame_LigA name_mapping_LigA = Ok renamed
    ∧ rename_column renamed name_mapping_back = Ok frame_LigA.
Proof.
  apply (rename_column_round_trip (H := string_pandas) frame_LigA
           name_mapping_LigA name_mapping_back 0); [reflexivity|discriminate|].
  repeat constructor. exists "LigA", "CCD-0001".
  split; [reflexivity|]. split; vm_compute; reflexivity.
Defined.

Lemma get_exp_data_record_example :
  get_exp_data exp_duplicate
    = Ok [("A", {| exp_dG := (-8)%float; exp_dG_err := 0%float;
                   fep_dG := (-8.5)%float; fep_dG_err := 0.1%float |})]
  ∧ ∃ r, od_get "A" [("A", {| exp_dG := (-8)%float; exp_dG_err := 0%float;
                              fep_dG := (-8.5)%float;
                              fep_dG_err := 0.1%float |})] = Some r
         ∧ ["A"; "-8.0"; "-8.5"; "0.1"] !! 1 ≫= float_of_str = Some (exp_dG r)
         ∧ ["A"; "-8.0"; "-8.5"; "0.1"] !! 2 ≫= float_of_str = Some (fep_dG r)
         ∧ ["A"; "-8.0"; "-8.5"; "0.1"] !! 3 ≫= float_of_str
             = Some (fep_dG_err r)
         ∧ exp_dG_err r = 0%float.
Proof.
  assert (get_exp_data exp_duplicate
          = Ok [("A", {| exp_dG := (-8)%float; exp_dG_err := 0%float;
                         fep_dG := (-8.5)%float; fep_dG_err := 0.1%float |})])
    as Hrun by (vm_compute; reflexivity).
  split; [exact Hrun|].
  apply (get_exp_data_record exp_header [["A"; "-10.0"; "-9.5"; "0.1"]] []
           ["A"; "-8.0"; "-8.5"; "0.1"] _ 0 1 2 3 "A" Hrun);
    [reflexivity..|constructor].
Defined.

Lemma get_calc_data_record_example :
  get_calc_data calc_duplicate
    = ([], Ok [("A->B", {| ligand_i := "A"; ligand_j := "B";
                           ddG := 2.5%float; ddG_err := 0.2%float |})])
  ∧ ∃ r g e,
      od_get "A->B" [("A->B", {| ligand_i := "A"; ligand_j := "B";
                                 ddG := 2.5%float; ddG_err := 0.2%float |})]
        = Some r
      ∧ ["A"; "B"; "2.5"; "0.2"] !! 0 = Some (ligand_i r)
      ∧ ["A"; "B"; "2.5"; "0.2"] !! 1 = Some (ligand_j r)
      ∧ ["A"; "B"; "2.5"; "0.2"] !! 2 ≫= float_of_str = Some g ∧ ddG r = g
      ∧ ["A"; "B"; "2.5"; "0.2"] !! 3 ≫= float_of_str = Some e
      ∧ ddG_err r = (if PrimFloat.ltb e 0.01 then PrimFloat.add e 0.01 else e).
Proof.
  assert (get_calc_data calc_duplicate
          = ([], Ok [("A->B", {| ligand_i := "A"; ligand_j := "B";
                                 ddG := 2.5%float; ddG_err := 0.2%float |})]))
    as Hrun by (vm_compute; reflexivity).
  split; [exact Hrun|].
  apply (get_calc_data_record calc_header [["A"; "B"; "1.0"; "0.1"]] []
           ["A"; "B"; "2.5"; "0.2"] _ _ "A->B" Hrun); [reflexivity|constructor].
Defined.

End more_examples.

(** ** The renaming utility, from file to file *)

Section file_properties.
Import rename_exp_data rename_exp_data_files.
Context `{!Pandas, !PandasIO}.

(** C8, as the code has it.  When the input file has at least one data row
    and every ligand name in it, as pandas read it, is in the mapping, the
    utility writes one file and returns.  What it writes is what [to_csv]
    makes of a frame that has the columns and the number of rows of the frame
    that [read_csv] made of the input; each of its rows is the row read with
    the cell of the "Ligand Name" column replaced by the mapped value, so
    every cell of every other column is the cell read.  The text of those
    cells in the output is [to_csv]'s writing of what [read_csv] read, not
    the text of the input. *)
Theorem main_from_file_renames_frame (experimental_data : list (list string))
    (exp_csv : DataFrame cell) (name_mapping : gmap string cell)
    (output : string) (i : nat) :
  read_csv experimental_data = Ok exp_csv →
  index "Ligand Name" (columns exp_csv) = Ok i →
  rows exp_csv ≠ [] →
  Forall (λ r, ∃ c, r !! i = Some c
                    ∧ is_Some (name_mapping !! str_of_cell c)) (rows exp_csv) →
  ∃ out,
    main_from_file experimental_data name_mapping output
      = ([ToCsv output out], Ok tt)
    ∧ files_written (main_from_file experimental_data name_mapping output).1
        = [(output, to_csv out)]
    ∧ columns out = columns exp_csv
    ∧ length (rows out) = length (rows exp_csv)
    ∧ (∀ k row, rows exp_csv !! k = Some row →
         ∃ c new, row !! i = Some c
                  ∧ name_mapping !! str_of_cell c = Some new
                  ∧ rows out !! k = Some (<[i := new]> row))
    ∧ (∀ k j, j ≠ i →
         rows out !! k ≫= (.!! j) = rows exp_csv !! k ≫= (.!! j)).
Proof.
  intros Hread Hi Hrows Hmapped.
  destruct (rename_column_mapped exp_csv name_mapping i Hi Hrows Hmapped)
    as (rows' & Hrun & Hall).
  assert (main_from_file experimental_data name_mapping output
          = ([ToCsv output {| columns := columns exp_csv; rows := rows' |}],
             Ok tt)) as Hmain.
  { unfold main_from_file, main, lift. rewrite Hread. cbn [bind app].
    by rewrite Hrun. }
  assert (∀ k row, rows exp_csv !! k = Some row →
            ∃ c new, row !! i = Some c
                     ∧ name_mapping !! str_of_cell c = Some new
                     ∧ rows' !! k = Some (<[i := new]> row)) as Hrow.
  { intros k row Hk.
    destruct (Forall2_lookup_l _ _ _ _ _ Hall Hk)
      as (row' & Hk' & c & new & Hc & Hnew & ->).
    by exists c, new. }
  exists {| columns := columns exp_csv; rows := rows' |}.
  split; [exact Hmain|]. split; [by rewrite Hmain|]. split; [done|].
  split; [symmetry; by apply (Forall2_length _ _ _ Hall)|].
  split; [exact Hrow|].
  intros k j Hne. simpl. destruct (rows exp_csv !! k) as [row|] eqn:Hk.
  - destruct (Hrow k row Hk) as (c & new & _ & _ & ->). simpl.
    by apply list_lookup_insert_ne.
  - destruct (rows' !! k) as [row'|] eqn:Hk'; [|done].
    apply lookup_lt_Some in Hk'. apply lookup_ge_None in Hk.
    apply Forall2_length in Hall. lia.
Qed.

End file_properties.

Section file_examples.
Import rename_exp_data rename_exp_data_files fixtures more_fixtures
  typed_fixtures.

Lemma main_from_file_renames_frame_example :
  @read_csv typed_pandas typed_pandas_io csv_leading_zeros
    = Ok {| columns := ["Ligand Name"; "Replicate"];
            rows := [[VStr "LigA"; VInt 7]] |}
  ∧ name_mapping_values !! "LigA" = Some (VStr "CCD-0001")
  ∧ ∃ out,
      @main_from_file typed_pandas typed_pandas_io csv_leading_zeros
        name_mapping_values "blinded_experimental_data.csv"
        = ([ToCsv "blinded_experimental_data.csv" out], Ok tt)
      ∧ @columns value out = ["Ligand Name"; "Replicate"]
      ∧ @rows value out !! 0 = Some [VStr "CCD-0001"; VInt 7].
Proof.
  assert (@read_csv typed_pandas typed_pandas_io csv_leading_zeros
          = Ok {| columns := ["Ligand Name"; "Replicate"];
                  rows := [[VStr "LigA"; VInt 7]] |}) as Hread
    by (vm_compute; reflexivity).
  assert (name_mapping_values !! "LigA" = Some (VStr "CCD-0001")) as Hmapped
    by (vm_compute; reflexivity).
  split; [exact Hread|]. split; [exact Hmapped|].
  destruct (@main_from_file_renames_frame typed_pandas typed_pandas_io
              csv_leading_zeros _ name_mapping_values
              "blinded_experimental_data.csv" 0 Hread)
    as (out & Hmain & _ & Hcols & _ & Hrows & _).
  - reflexivity.
  - discriminate.
  - repeat constructor. exists (VStr "LigA"). split; [reflexivity|].
    by exists (VStr "CCD-0001").
  - exists out. split; [exact Hmain|]. split; [exact Hcols|].
    destruct (Hrows 0 [VStr "LigA"; VInt 7] eq_refl)
      as (c & new & Hc & Hnew & Hout).
    injection Hc as <-. simpl in Hnew.
    assert (new = VStr "CCD-0001") as -> by congruence. exact Hout.
Defined.

(** C8 fails as stated: the input has the field 007 in a column other than
    "Ligand Name", every ligand name is in the mapping, and the output has 7
    in its place. *)
Lemma output_text_differs_from_input :
  let out :=
    @main_from_file typed_pandas typed_pandas_io csv_leading_zeros
      name_mapping_values "blinded_experimental_data.csv" in
  csv_leading_zeros = [["Ligand Name"; "Replicate"]; ["LigA"; "007"]]
  ∧ name_mapping_values !! "LigA" = Some (VStr "CCD-0001")
  ∧ out.2 = Ok tt
  ∧ @files_written typed_pandas typed_pandas_io out.1
      = [("blinded_experimental_data.csv",
          [["Ligand Name"; "Replicate"]; ["CCD-0001"; "7"]])]
  ∧ "7" ≠ "007".
Proof.
  intros out. split; [reflexivity|]. split; [vm_compute; reflexivity|].
  split; [vm_compute; reflexivity|]. split; [vm_compute; reflexivity|].
  discriminate.
Qed.

(** C5 fails as stated: of two rows whose names the mapping lacks, LigX and
    then LigB, the error names LigX and not LigB. *)
Lemma later_unmapped_name_is_not_named :
  rows frame_two_unmapped = [["LigX"; "-10.0"]; ["LigB"; "-8.0"]]
  ∧ name_mapping_LigA !! "LigX" = None
  ∧ name_mapping_LigA !! "LigB" = None
  ∧ @main string_pandas frame_two_unmapped name_mapping_LigA
      "blinded_experimental_data.csv"
    = ([], Err (RuntimeError
                  "Could not convert LigX as it was not found in the name mapping."))
  ∧ "Could not convert LigX as it was not found in the name mapping."
    ≠ "Could not convert LigB as it was not found in the name mapping.".
Proof.
  split; [reflexivity|]. split; [vm_compute; reflexivity|].
  split; [vm_compute; reflexivity|]. split; [vm_compute; reflexivity|].
  discriminate.
Qed.

End file_examples.
